(** * platform_contracts: schema records, their validation and their predicates

    A shallow embedding of the Python package [platform_contracts]
    (pydantic v2 models) together with the properties its specification
    states about it.

    Conventions of the embedding.
    - A Python [str] is a [string]; every [ascii] is read as the Unicode code
      point of the same number, so the strings covered are those whose code
      points are below 256.
    - A Python exception is a value of [exn]; a computation that may raise
      returns a [result].
    - pydantic's model construction is a function from the keyword arguments
      (one [option] per accepted key, [None] for an absent key) to
      [validated]: either the instance or the single [ValidationError] that
      carries one [ErrorDetails] per failed field.
    - [Decimal] values are finite sign/coefficient/exponent triples and are
      added under Python's default decimal context. *)

From Stdlib Require Import Bool List String Ascii Arith ZArith NArith QArith Lia.
From Stdlib Require Import Qpower.
From Stdlib Require Import Permutation.
From Stdlib Require Import DecimalString.
Import ListNotations.

Set Implicit Arguments.

Local Open Scope string_scope.

(* ===================================================================== *)
(** ** Exceptions and results *)

Inductive exn : Type :=
| ValueError (msg : string)
| IndexError
| DecimalOverflow
| FrozenInstanceError.

Inductive result (A : Type) : Type :=
| Ok (a : A)
| Raise (e : exn).

Arguments Ok {A} a.
Arguments Raise {A} e.

Definition bind {A B : Type} (r : result A) (k : A -> result B) : result B :=
  match r with
  | Ok a => k a
  | Raise e => Raise e
  end.

Notation "x <- r ;; k" := (bind r (fun x => k))
  (at level 61, r at next level, right associativity).

Definition returns {A : Type} (r : result A) : Prop := exists a, r = Ok a.

(** An integer as error messages print it. *)
Definition Z_to_string (z : Z) : string := NilZero.string_of_int (Z.to_int z).

(* ===================================================================== *)
(** ** The [str] methods the package calls *)

Module PyStr.

(** [c.isdigit()] for one character: Numeric_Type Digit or Decimal.  Below
    code point 256 these are the ten ASCII digits and the superscripts
    U+00B2, U+00B3 and U+00B9. *)
Definition isdigit_char (c : ascii) : bool :=
  let n := nat_of_ascii c in
  ((48 <=? n)%nat && (n <=? 57)%nat)
  || (n =? 178)%nat || (n =? 179)%nat || (n =? 185)%nat.

(** The class [\d] of the specification's pattern, [c.isdecimal()]: below
    code point 256 only the ten ASCII digits. *)
Definition isdecimal_char (c : ascii) : bool :=
  let n := nat_of_ascii c in
  (48 <=? n)%nat && (n <=? 57)%nat.

Fixpoint all_chars (p : ascii -> bool) (s : string) : bool :=
  match s with
  | EmptyString => true
  | String c r => p c && all_chars p r
  end.

(** [s.isdigit()]: at least one character, and all of them digits. *)
Definition isdigit (s : string) : bool :=
  match s with
  | EmptyString => false
  | String _ _ => all_chars isdigit_char s
  end.

(** [s.split(sep)] for a one-character separator: never an empty list. *)
Fixpoint split (sep : ascii) (s : string) : list string :=
  match s with
  | EmptyString => [EmptyString]
  | String c r =>
      if Ascii.eqb c sep then EmptyString :: split sep r
      else match split sep r with
           | [] => [String c EmptyString]
           | p :: ps => String c p :: ps
           end
  end.

(** [l[0]] *)
Definition index0 {A : Type} (l : list A) : result A :=
  match l with
  | [] => Raise IndexError
  | x :: _ => Ok x
  end.

Definition is_ascii (s : string) : bool :=
  all_chars (fun c => (nat_of_ascii c <? 128)%nat) s.

(** No character of [s] is [sep]. *)
Definition free_of (sep : ascii) (s : string) : bool :=
  all_chars (fun c => negb (Ascii.eqb c sep)) s.

(** The superscript two, U+00B2: a digit for [isdigit], not a decimal. *)
Definition superscript_two : ascii := ascii_of_nat 178.

End PyStr.

(* ===================================================================== *)
(** ** Exact values *)

(** The rational number [z * base^e]: the value of a decimal ([base] 10) or
    binary ([base] 2) number given by coefficient and exponent. *)
Definition scaled (base z e : Z) : Q := (inject_Z z * (inject_Z base) ^ e)%Q.

(* ===================================================================== *)
(** ** pydantic: validation errors and their aggregation *)

Module Pydantic.

Inductive error_type : Type :=
| missing
| value_error
| greater_than_equal
| less_than_equal
| string_too_long
| finite_number.

Record ErrorDetails : Type := mkError {
  loc : string;
  type : error_type;
  msg : string
}.

(** The outcome of constructing a model from keyword arguments: the instance, or the one
    [ValidationError] raised, with its [errors()]. *)
Inductive validated (A : Type) : Type :=
| Valid (a : A)
| ValidationError (errors : list ErrorDetails).

Arguments Valid {A} a.
Arguments ValidationError {A} errors.

Definition errors_of {A : Type} (v : validated A) : list ErrorDetails :=
  match v with
  | Valid _ => []
  | ValidationError es => es
  end.

Definition is_valid {A : Type} (v : validated A) : bool :=
  match v with
  | Valid _ => true
  | ValidationError _ => false
  end.

(** Fields are validated one after the other in declaration order; a
    failed field does not stop the validation of the following ones, and
    the line errors of all of them end in the same exception. *)
Definition ap {A B : Type} (f : validated (A -> B)) (x : validated A)
  : validated B :=
  match f, x with
  | Valid g, Valid a => Valid (g a)
  | Valid _, ValidationError es => ValidationError es
  | ValidationError es, Valid _ => ValidationError es
  | ValidationError es1, ValidationError es2 => ValidationError (es1 ++ es2)
  end.

Definition pure {A : Type} (a : A) : validated A := Valid a.

(** A field with neither default nor constraint: [name: T]. *)
Definition required {A : Type} (name : string) (input : option A)
  : validated A :=
  match input with
  | Some a => Valid a
  | None => ValidationError [mkError name missing "Field required"]
  end.

(** A field with a default and no constraint: [name: T = d].  The default
    is used as it is. *)
Definition optional {A : Type} (d : A) (input : option A) : validated A :=
  match input with
  | Some a => Valid a
  | None => Valid d
  end.

(** An [int] field declared [Field(ge=lo, le=hi)] without default.  The
    upper bound is tested first. *)
Definition required_int_range (name : string) (lo hi : Z) (input : option Z)
  : validated Z :=
  match input with
  | None => ValidationError [mkError name missing "Field required"]
  | Some v =>
      if (v >? hi)%Z then
        ValidationError
          [mkError name less_than_equal
             ("Input should be less than or equal to " ++ Z_to_string hi)]
      else if (v <? lo)%Z then
        ValidationError
          [mkError name greater_than_equal
             ("Input should be greater than or equal to " ++ Z_to_string lo)]
      else Valid v
  end.

(** A field validator in "after" mode: it runs on a supplied value only,
    and a [ValueError] it raises becomes a [value_error] line error.  (The
    validators of the package raise nothing else.) *)
Definition validated_by {A : Type} (name : string)
    (validator : A -> result A) (d : A) (input : option A) : validated A :=
  match input with
  | None => Valid d
  | Some v =>
      match validator v with
      | Ok v' => Valid v'
      | Raise (ValueError m) =>
          ValidationError [mkError name value_error ("Value error, " ++ m)]
      | Raise _ =>
          ValidationError [mkError name value_error "Value error"]
      end
  end.

(** The part of [model_config] the package sets or relies on, with
    pydantic's defaults. *)
Record ConfigDict : Type := mkConfig {
  frozen : bool;
  validate_assignment : bool;
  populate_by_name : bool
}.

Definition default_config : ConfigDict :=
  {| frozen := false; validate_assignment := false; populate_by_name := false |}.

(** [BaseModel.__setattr__] for a declared field of a model with
    configuration [cfg]: refused when the model is frozen, run through the
    field's validation when [validate_assignment] is set, and a plain store
    otherwise. *)
Definition setattr {T V : Type} (cfg : ConfigDict)
    (validate : V -> result V) (store : T -> V -> T) (self : T) (v : V)
  : result T :=
  if frozen cfg then Raise FrozenInstanceError
  else if validate_assignment cfg then
    v' <- validate v ;; Ok (store self v')
  else Ok (store self v).

(** Lookup of a field declared with [alias]: the alias is tried first, and
    the field's own name too when [populate_by_name] is set. *)
Definition lookup_alias {A : Type} (cfg : ConfigDict)
    (by_alias by_name : option A) : option A :=
  match by_alias with
  | Some a => Some a
  | None => if populate_by_name cfg then by_name else None
  end.

End Pydantic.

Notation "f <$> x" := (Pydantic.ap (Pydantic.pure f) x)
  (at level 65, left associativity).
Notation "f <*> x" := (Pydantic.ap f x)
  (at level 65, left associativity).

(* ===================================================================== *)
(** ** versioning.py *)

Module Versioning.
Import PyStr Pydantic.

Record VersionedSchema : Type := mkVersionedSchema {
  schema_version : string
}.

Definition default_schema_version : string := "1.0".

Definition validate_version (v : string) : result string :=
  let parts := split "." v in
  if negb (List.length parts =? 2)%nat || negb (forallb isdigit parts) then
    Raise (ValueError ("Invalid schema version format: " ++ v
                       ++ ". Expected 'major.minor'."))
  else Ok v.

(** The field [schema_version] with its validator, as every model that
    inherits [VersionedSchema] has it. *)
Definition schema_version_field (input : option string) : validated string :=
  validated_by "schema_version" validate_version default_schema_version input.

(** [VersionedSchema(schema_version=...)] *)
Definition new (schema_version : option string) : validated VersionedSchema :=
  mkVersionedSchema <$> schema_version_field schema_version.

Definition is_compatible (self : VersionedSchema) (other_version : string)
  : result bool :=
  my_major <- index0 (split "." (schema_version self)) ;;
  other_major <- index0 (split "." other_version) ;;
  Ok (String.eqb my_major other_major).

(** [VersionedSchema] declares no [model_config]. *)
Definition model_config : ConfigDict := default_config.

(** [self.schema_version = v] on an instance: refused when the model is
    frozen, validated when [validate_assignment] is set, and a plain store
    otherwise. *)
Definition setattr_schema_version (cfg : ConfigDict)
    (self : VersionedSchema) (v : string) : result VersionedSchema :=
  if frozen cfg then Raise FrozenInstanceError
  else if validate_assignment cfg then
    v' <- validate_version v ;; Ok (mkVersionedSchema v')
  else Ok (mkVersionedSchema v).

(** *** The specification's wording *)

(** [^\d+\.\d+$] for a class [digit] of characters: a non-empty run of
    digits, one dot, a non-empty run of digits. *)
Definition digits1 (digit : ascii -> bool) (s : string) : Prop :=
  s <> EmptyString /\ all_chars digit s = true.

Definition major_minor (digit : ascii -> bool) (s : string) : Prop :=
  exists major minor,
    s = major ++ String "." minor /\ digits1 digit major /\ digits1 digit minor.

(** The text before the first dot, the whole text when there is none. *)
Fixpoint before_first_dot (s : string) : string :=
  match s with
  | EmptyString => EmptyString
  | String c r =>
      if Ascii.eqb c "." then EmptyString else String c (before_first_dot r)
  end.

Fixpoint contains_dot (s : string) : bool :=
  match s with
  | EmptyString => false
  | String c r => Ascii.eqb c "." || contains_dot r
  end.

End Versioning.

(* ===================================================================== *)
(** ** decimal.Decimal under the default context *)

Module PyDecimal.

Local Open Scope Z_scope.

(** A finite [Decimal]: [(-1)^sign * coefficient * 10^exponent].  pydantic
    refuses infinities and NaN for a [Decimal] field, so no instance of the
    package holds one. *)
Record Decimal : Type := mkDecimal {
  sign : bool;
  coefficient : N;
  exponent : Z
}.

(** [getcontext()]: prec=28, rounding=ROUND_HALF_EVEN, Emin=-999999,
    Emax=999999, clamp=0, and [Overflow] among the traps. *)
Definition prec : Z := 28.
Definition Emax : Z := 999999.
Definition Emin : Z := -999999.
Definition Etiny : Z := Emin - prec + 1.
Definition Etop : Z := Emax - prec + 1.

(** [Decimal(0)], also what the [int] 0 converts to. *)
Definition zero : Decimal := mkDecimal false 0 0.

(** [len(self._int)]: the number of decimal digits, 1 for 0. *)
Fixpoint ndigits_fuel (fuel : nat) (n : N) : Z :=
  match fuel with
  | O => 1
  | S f => if (n <? 10)%N then 1 else 1 + ndigits_fuel f (n / 10)%N
  end.

Definition ndigits (n : N) : Z := ndigits_fuel (N.to_nat (N.size n)) n.

Definition signed (d : Decimal) : Z :=
  if sign d then - Z.of_N (coefficient d) else Z.of_N (coefficient d).

(** The value as a rational number. *)
Definition to_Q (d : Decimal) : Q := scaled 10 (signed d) (exponent d).

(** The coefficient of [d] once written with the exponent [e <= exponent d]. *)
Definition aligned (e : Z) (d : Decimal) : Z :=
  signed d * 10 ^ (exponent d - e).

(** [self._cmp(other)]: the exact comparison of two finite values. *)
Definition cmp (a b : Decimal) : comparison :=
  let e := Z.min (exponent a) (exponent b) in
  Z.compare (aligned e a) (aligned e b).

Definition eqb (a b : Decimal) : bool :=
  match cmp a b with Eq => true | _ => false end.
Definition gtb (a b : Decimal) : bool :=
  match cmp a b with Gt => true | _ => false end.
Definition ltb (a b : Decimal) : bool :=
  match cmp a b with Lt => true | _ => false end.

(** The exact sum, with the smaller of the two exponents.  A zero sum is
    negative only when both operands are. *)
Definition add_exact (a b : Decimal) : Decimal :=
  let e := Z.min (exponent a) (exponent b) in
  let z := aligned e a + aligned e b in
  mkDecimal (if z <? 0 then true else if z =? 0 then sign a && sign b else false)
            (Z.to_N (Z.abs z)) e.

(** [self._fix(context)]: round to the context's precision, half to even,
    and keep the exponent within its bounds; [Overflow] is raised. *)
Definition fix_ (d : Decimal) : result Decimal :=
  if (coefficient d =? 0)%N then
    Ok (mkDecimal (sign d) 0 (Z.min (Z.max (exponent d) Etiny) Emax))
  else
    let exp_min := ndigits (coefficient d) + exponent d - prec in
    if exp_min >? Etop then Raise DecimalOverflow
    else
      let exp_min := Z.max exp_min Etiny in
      if exponent d <? exp_min then
        let digits := ndigits (coefficient d) + exponent d - exp_min in
        let '(c, e) := if digits <? 0 then (1%N, exp_min - 1)
                       else (coefficient d, exponent d) in
        let unit := Z.to_N (10 ^ (exp_min - e)) in
        let kept := (c / unit)%N in
        let dropped := (c mod unit)%N in
        let up := ((unit <? 2 * dropped)%N
                   || ((unit =? 2 * dropped)%N && N.odd kept))%bool in
        let coeff := if up then (kept + 1)%N else kept in
        let '(coeff, exp_min) :=
          if ndigits coeff >? prec then ((coeff / 10)%N, exp_min + 1)
          else (coeff, exp_min) in
        if exp_min >? Etop then Raise DecimalOverflow
        else Ok (mkDecimal (sign d) coeff exp_min)
      else Ok d.

(** [a + b] *)
Definition add (a b : Decimal) : result Decimal := fix_ (add_exact a b).

(** [sum(xs)]: from the [int] 0, left to right. *)
Definition sum (xs : list Decimal) : result Decimal :=
  fold_left (fun acc x => a <- acc ;; add a x) xs (Ok zero).

(** The sum without any rounding, as the specification words it. *)
Definition sum_Q (xs : list Decimal) : Q :=
  fold_left (fun acc x => (acc + to_Q x)%Q) xs (0%Q).

(** Amounts counted in units of [10^-k]: their total, and the total of
    their absolute values. *)
Definition total_units (k : Z) (xs : list Decimal) : Z :=
  fold_right (fun d acc => aligned (- k) d + acc) 0 xs.

Definition abs_units (k : Z) (xs : list Decimal) : Z :=
  fold_right (fun d acc => Z.abs (aligned (- k) d) + acc) 0 xs.

(** Every amount has at most [k] decimal places, and the absolute values
    add up to less than [10^prec] units: no partial sum needs more than
    [prec] digits. *)
Definition fits (k : Z) (xs : list Decimal) : Prop :=
  Forall (fun d => - k <= exponent d) xs /\ abs_units k xs < 10 ^ prec.

(** Any [Decimal] object, as a caller can pass it: a finite number, an
    infinity or NaN. *)
Inductive value : Type :=
| Fin (d : Decimal)
| Infinity (neg : bool)
| NaN.

(** The validation of a [Decimal] argument: only a finite number passes. *)
Definition finite (name : string) (v : value) : Pydantic.validated Decimal :=
  match v with
  | Fin d => Pydantic.Valid d
  | Infinity _ | NaN =>
      Pydantic.ValidationError
        [Pydantic.mkError name Pydantic.finite_number
           "Input should be a finite number"]
  end.

(** A field [name: Decimal] without default. *)
Definition required_decimal (name : string) (input : option value)
  : Pydantic.validated Decimal :=
  match input with
  | None =>
      Pydantic.ValidationError
        [Pydantic.mkError name Pydantic.missing "Field required"]
  | Some v => finite name v
  end.

(** A field [name: Decimal = d]. *)
Definition optional_decimal (name : string) (d : Decimal) (input : option value)
  : Pydantic.validated Decimal :=
  match input with
  | None => Pydantic.Valid d
  | Some v => finite name v
  end.

End PyDecimal.

(* ===================================================================== *)
(** ** common/money.py *)

Module Money.
Import Pydantic PyDecimal.

Record Money : Type := mkMoney {
  amount : Decimal;
  currency : string
}.

(** [Field(default="USD", max_length=3)] *)
Definition currency_field (input : option string) : validated string :=
  match input with
  | None => Valid "USD"
  | Some v =>
      if (3 <? String.length v)%nat then
        ValidationError
          [mkError "currency" string_too_long "String should have at most 3 characters"]
      else Valid v
  end.

(** [Money(amount=..., currency=...)] *)
Definition new (amount : option value) (currency : option string)
  : validated Money :=
  mkMoney <$> required_decimal "amount" amount <*> currency_field currency.

Definition is_positive (self : Money) : bool := gtb (amount self) zero.
Definition is_negative (self : Money) : bool := ltb (amount self) zero.
Definition is_zero (self : Money) : bool := eqb (amount self) (mkDecimal false 0 0).

End Money.

(* ===================================================================== *)
(** ** accounting/journal_entry.py *)

Record date : Type := mkDate { year : Z; month : Z; day : Z }.

Module Journal.
Import Pydantic PyDecimal.

Record JournalEntryLine : Type := mkLine {
  account_id : string;
  account_name : string;
  debit : Decimal;
  credit : Decimal;
  description : string;
  entity_id : string;
  entity_type : string
}.

Definition new_line (account_id account_name : option string)
    (debit credit : option value)
    (description entity_id entity_type : option string)
  : validated JournalEntryLine :=
  mkLine <$> required "account_id" account_id
         <*> optional "" account_name
         <*> optional_decimal "debit" zero debit
         <*> optional_decimal "credit" zero credit
         <*> optional "" description
         <*> optional "" entity_id
         <*> optional "" entity_type.

Record JournalEntry : Type := mkEntry {
  schema_version : string;
  entry_id : string;
  entry_date : date;
  memo : string;
  lines : list JournalEntryLine;
  source : string;
  reference_id : string;
  is_adjusting : bool
}.

Definition new (schema_version entry_id : option string)
    (entry_date : option date) (memo : option string)
    (lines : option (list JournalEntryLine))
    (source reference_id : option string) (is_adjusting : option bool)
  : validated JournalEntry :=
  mkEntry <$> Versioning.schema_version_field schema_version
          <*> optional "" entry_id
          <*> required "entry_date" entry_date
          <*> optional "" memo
          <*> optional [] lines
          <*> optional "" source
          <*> optional "" reference_id
          <*> optional false is_adjusting.

Definition is_balanced (self : JournalEntry) : result bool :=
  total_debits <- sum (map debit (lines self)) ;;
  total_credits <- sum (map credit (lines self)) ;;
  Ok (eqb total_debits total_credits).

(** The specification's wording: both totals taken without rounding. *)
Definition exactly_balanced (self : JournalEntry) : Prop :=
  (sum_Q (map debit (lines self)) == sum_Q (map credit (lines self)))%Q.

End Journal.

(* ===================================================================== *)
(** ** float *)

Module PyFloat.

Local Open Scope Z_scope.

(** A [float] by its exact value: [(-1)^neg * m * 2^e], an infinity, or
    NaN.  Nothing in the package does arithmetic on floats; they are only
    compared. *)
Inductive float : Type :=
| Finite (neg : bool) (m : N) (e : Z)
| Inf (neg : bool)
| NaN.

Definition signed (neg : bool) (m : N) : Z :=
  if neg then - Z.of_N m else Z.of_N m.

(** The comparison of two floats; [None] when one of them is NaN. *)
Definition cmp (a b : float) : option comparison :=
  match a, b with
  | NaN, _ | _, NaN => None
  | Inf na, Inf nb =>
      Some (if Bool.eqb na nb then Eq else if na then Lt else Gt)
  | Inf na, Finite _ _ _ => Some (if na then Lt else Gt)
  | Finite _ _ _, Inf nb => Some (if nb then Gt else Lt)
  | Finite na ma ea, Finite nb mb eb =>
      let e := Z.min ea eb in
      Some (Z.compare (signed na ma * 2 ^ (ea - e)) (signed nb mb * 2 ^ (eb - e)))
  end.

(** [a > b] and [a < b]: false when unordered. *)
Definition gtb (a b : float) : bool :=
  match cmp a b with Some Gt => true | _ => false end.
Definition ltb (a b : float) : bool :=
  match cmp a b with Some Lt => true | _ => false end.

(** [a <= b] and [a >= b]: false when unordered. *)
Definition leb (a b : float) : bool :=
  match cmp a b with Some Lt | Some Eq => true | _ => false end.
Definition geb (a b : float) : bool :=
  match cmp a b with Some Gt | Some Eq => true | _ => false end.

(** The float of an integer of small magnitude, such as the bounds [0.0]
    and [1.0]. *)
Definition of_Z (z : Z) : float := Finite (z <? 0) (Z.to_N (Z.abs z)) 0.

Definition is_nan (a : float) : bool :=
  match a with NaN => true | _ => false end.

(** The literals [0.0] and [1.0]. *)
Definition zero : float := Finite false 0 0.
Definition one : float := Finite false 1 0.

(** The value of a finite float as a rational number. *)
Definition to_Q (neg : bool) (m : N) (e : Z) : Q := scaled 2 (signed neg m) e.

(** Membership of the closed interval [[lo, hi]] of the real line. *)
Definition in_interval (lo hi : Q) (a : float) : Prop :=
  match a with
  | Finite neg m e => (lo <= to_Q neg m e /\ to_Q neg m e <= hi)%Q
  | Inf _ => False
  | NaN => False
  end.

(** A [float] field declared [Field(ge=lo, le=hi)] without default, for
    bounds that are integral floats, each given by its integer.  The value
    must pass [v <= hi], then [v >= lo]; NaN passes neither and is reported
    at the first.  The messages print an integral bound without fraction. *)
Definition required_float_range (name : string) (lo hi : Z)
    (input : option float) : Pydantic.validated float :=
  match input with
  | None =>
      Pydantic.ValidationError
        [Pydantic.mkError name Pydantic.missing "Field required"]
  | Some v =>
      if negb (leb v (of_Z hi)) then
        Pydantic.ValidationError
          [Pydantic.mkError name Pydantic.less_than_equal
             ("Input should be less than or equal to " ++ Z_to_string hi)]
      else if negb (geb v (of_Z lo)) then
        Pydantic.ValidationError
          [Pydantic.mkError name Pydantic.greater_than_equal
             ("Input should be greater than or equal to " ++ Z_to_string lo)]
      else Pydantic.Valid v
  end.

End PyFloat.

(** Records are declared once, over the shape [F] of a field: [Id] for an
    instance, [option] for the keyword arguments of a construction. *)
Definition Id (T : Type) : Type := T.

(* ===================================================================== *)
(** ** tax/estimate_request.py *)

Module TaxRequest.
Import Pydantic PyDecimal.

Record Fields (F : Type -> Type) : Type := mk {
  schema_version : F string;
  tenant_id : F string;
  client_id : F string;
  tax_year : F Z;
  as_of_month : F Z;
  filing_status : F string;
  entity_type : F string;
  state : F string;
  gross_receipts_ytd : F Decimal;
  cost_of_goods_sold_ytd : F Decimal;
  total_expenses_ytd : F Decimal;
  officer_compensation_ytd : F Decimal;
  other_income_ytd : F Decimal;
  w2_income : F Decimal;
  spouse_w2_income : F Decimal;
  capital_gains : F Decimal;
  other_taxable_income : F Decimal;
  itemized_deductions : F Decimal;
  prior_year_overpayment : F Decimal;
  estimated_payments_ytd : F Decimal;
  qbi_eligible : F bool;
  qbi_prior_year_loss : F Decimal
}.

Definition TaxComputeRequest : Type := Fields Id.

(** The keyword arguments of a construction, each of the type its field
    declares and every [Decimal] finite.  (An argument of another type, or a
    [Decimal] that is an infinity or NaN, is refused by pydantic's parsing
    before any constraint of the class is looked at; that part is not
    modelled here.) *)
Definition kwargs : Type := Fields option.

(** [as_of_month: int = Field(ge=1, le=12)] *)
Definition as_of_month_field (input : option Z) : validated Z :=
  required_int_range "as_of_month" 1 12 input.

Definition new (k : kwargs) : validated TaxComputeRequest :=
  @mk Id <$> Versioning.schema_version_field (schema_version k)
         <*> optional "" (tenant_id k)
         <*> optional "" (client_id k)
         <*> optional 2025%Z (tax_year k)
         <*> as_of_month_field (as_of_month k)
         <*> optional "" (filing_status k)
         <*> optional "" (entity_type k)
         <*> optional "" (state k)
         <*> optional zero (gross_receipts_ytd k)
         <*> optional zero (cost_of_goods_sold_ytd k)
         <*> optional zero (total_expenses_ytd k)
         <*> optional zero (officer_compensation_ytd k)
         <*> optional zero (other_income_ytd k)
         <*> optional zero (w2_income k)
         <*> optional zero (spouse_w2_income k)
         <*> optional zero (capital_gains k)
         <*> optional zero (other_taxable_income k)
         <*> optional zero (itemized_deductions k)
         <*> optional zero (prior_year_overpayment k)
         <*> optional zero (estimated_payments_ytd k)
         <*> optional true (qbi_eligible k)
         <*> optional zero (qbi_prior_year_loss k).

(** Keyword arguments that supply [as_of_month] and nothing else. *)
Definition only_as_of_month (m : Z) : kwargs :=
  @mk option None None None None (Some m) None None None None None None
      None None None None None None None None None None None.

End TaxRequest.

(* ===================================================================== *)
(** ** tax/estimate_result.py *)

Module TaxResponse.
Import Pydantic PyDecimal.

Record QuarterlyPayment : Type := mkQuarterlyPayment {
  quarter : Z;
  due_date : string;
  federal_amount : Decimal;
  state_amount : Decimal;
  total_amount : Decimal;
  status : string
}.

Record Fields (F : Type -> Type) : Type := mk {
  schema_version : F string;
  tenant_id : F string;
  client_id : F string;
  tax_year : F Z;
  as_of_month : F Z;
  projected_annual_revenue : F Decimal;
  projected_annual_expenses : F Decimal;
  projected_net_income : F Decimal;
  total_federal_tax : F Decimal;
  total_state_tax : F Decimal;
  total_self_employment_tax : F Decimal;
  total_tax_liability : F Decimal;
  recommended_set_aside_pct : F Decimal;
  recommended_monthly_set_aside : F Decimal;
  quarterly_payments : F (list QuarterlyPayment);
  effective_tax_rate : F Decimal;
  marginal_tax_rate : F Decimal;
  qbi_deduction : F Decimal;
  engine_version : F string
}.

Definition TaxComputeResponse : Type := Fields Id.

(** The keyword arguments of a construction, each of the type its field
    declares and every [Decimal] finite, as for the request. *)
Definition kwargs : Type := Fields option.

(** [as_of_month: int = 0] *)
Definition as_of_month_field (input : option Z) : validated Z :=
  optional 0%Z input.

Definition new (k : kwargs) : validated TaxComputeResponse :=
  @mk Id <$> Versioning.schema_version_field (schema_version k)
         <*> optional "" (tenant_id k)
         <*> optional "" (client_id k)
         <*> optional 2025%Z (tax_year k)
         <*> as_of_month_field (as_of_month k)
         <*> optional zero (projected_annual_revenue k)
         <*> optional zero (projected_annual_expenses k)
         <*> optional zero (projected_net_income k)
         <*> optional zero (total_federal_tax k)
         <*> optional zero (total_state_tax k)
         <*> optional zero (total_self_employment_tax k)
         <*> optional zero (total_tax_liability k)
         <*> optional zero (recommended_set_aside_pct k)
         <*> optional zero (recommended_monthly_set_aside k)
         <*> optional [] (quarterly_payments k)
         <*> optional zero (effective_tax_rate k)
         <*> optional zero (marginal_tax_rate k)
         <*> optional zero (qbi_deduction k)
         <*> optional "" (engine_version k).

(** Keyword arguments that supply [as_of_month] and nothing else. *)
Definition only_as_of_month (m : Z) : kwargs :=
  @mk option None None None None (Some m) None None None None None None
      None None None None None None None None.

End TaxResponse.

(* ===================================================================== *)
(** ** accounting/classification.py *)

Module Classification.
Import Pydantic.

(** *** The records nested in requests and responses *)

Module ClientContext.
Record t : Type := mk {
  business_type : string;
  industry : string;
  tax_filing_type : string;
  state : string
}.
(** [ClientContext()] *)
Definition default : t := mk "" "" "" "".
End ClientContext.

Module AvailableAccount.
Record t : Type := mk {
  id : string;
  name : string;
  type : string;
  sub_type : string;
  schedule_c_line : string
}.
End AvailableAccount.

Module ExistingRule.
Record t : Type := mk {
  pattern : string;
  category_id : string;
  category_name : string
}.
End ExistingRule.

Module HistoricalPattern.
Record t : Type := mk {
  description : string;
  account_id : string;
  account_name : string;
  count : Z
}.
End HistoricalPattern.

Module TransactionForClassification.
Record t : Type := mk {
  transaction_id : string;
  description : string;
  amount : PyDecimal.Decimal;
  transaction_date : date;
  transaction_type : string;
  bank_account_type : string;
  vendor_name : string;
  memo : string;
  plaid_category : list string;
  plaid_merchant_name : string
}.
End TransactionForClassification.

Module RiskFlag.
Record t : Type := mk {
  code : string;
  severity : string;
  message : string
}.
End RiskFlag.

Module AlternativeSuggestion.
Record t : Type := mk {
  account_id : string;
  name : string;
  confidence : PyFloat.float
}.
End AlternativeSuggestion.

Module SuggestedRule.
Record t : Type := mk {
  pattern : string;
  suggested_account_id : string;
  suggested_account_name : string;
  confidence : PyFloat.float
}.
End SuggestedRule.

Module ClassificationResponseMeta.
Record t : Type := mk {
  request_id : string;
  duration_ms : Z;
  model : string;
  transactions_processed : Z;
  rule_matches : Z;
  historical_matches : Z;
  ai_classifications : Z
}.
(** [ClassificationResponseMeta()] *)
Definition default : t := mk "" 0 "" 0 0 0 0.
End ClassificationResponseMeta.

(** *** TransactionClassificationRequest *)

Module Request.
Record Fields (F : Type -> Type) : Type := mk {
  schema_version : F string;
  tenant_id : F string;
  client_id : F string;
  transactions : F (list TransactionForClassification.t);
  available_accounts : F (list AvailableAccount.t);
  existing_rules : F (list ExistingRule.t);
  historical_patterns : F (list HistoricalPattern.t);
  client_context : F ClientContext.t
}.

Definition TransactionClassificationRequest : Type := Fields Id.
Definition kwargs : Type := Fields option.

Definition new (k : kwargs) : validated TransactionClassificationRequest :=
  @mk Id <$> Versioning.schema_version_field (schema_version k)
         <*> required "tenant_id" (tenant_id k)
         <*> required "client_id" (client_id k)
         <*> required "transactions" (transactions k)
         <*> optional [] (available_accounts k)
         <*> optional [] (existing_rules k)
         <*> optional [] (historical_patterns k)
         <*> optional ClientContext.default (client_context k).

(** The constraints the class declares, field by field: [violated k f]
    when the keyword arguments [k] break the constraint of field [f]. *)
Definition violated (k : kwargs) (field : string) : Prop :=
  (field = "schema_version"
     /\ exists s, schema_version k = Some s
                  /\ ~ returns (Versioning.validate_version s))
  \/ (field = "tenant_id" /\ tenant_id k = None)
  \/ (field = "client_id" /\ client_id k = None)
  \/ (field = "transactions" /\ transactions k = None).
End Request.

(** *** TransactionClassificationResult *)

Module Result.
Record Fields (F : Type -> Type) : Type := mk {
  schema_version : F string;
  transaction_id : F string;
  suggested_account_id : F (option string);
  suggested_account_name : F string;
  suggested_vendor_id : F (option string);
  suggested_vendor_name : F string;
  confidence : F PyFloat.float;
  confidence_band : F string;
  source : F string;
  reasoning : F string;
  needs_review : F bool;
  needs_clarification : F bool;
  clarification_question : F string;
  risk_flags : F (list RiskFlag.t);
  alternative_suggestions : F (list AlternativeSuggestion.t)
}.

Definition TransactionClassificationResult : Type := Fields Id.
Definition kwargs : Type := Fields option.

(** [confidence: float = Field(ge=0.0, le=1.0)] *)
Definition confidence_field (input : option PyFloat.float)
  : validated PyFloat.float :=
  PyFloat.required_float_range "confidence" 0 1 input.

Definition new (k : kwargs) : validated TransactionClassificationResult :=
  @mk Id <$> Versioning.schema_version_field (schema_version k)
         <*> required "transaction_id" (transaction_id k)
         <*> optional None (suggested_account_id k)
         <*> optional "" (suggested_account_name k)
         <*> optional None (suggested_vendor_id k)
         <*> optional "" (suggested_vendor_name k)
         <*> confidence_field (confidence k)
         <*> optional "" (confidence_band k)
         <*> optional "" (source k)
         <*> optional "" (reasoning k)
         <*> optional false (needs_review k)
         <*> optional false (needs_clarification k)
         <*> optional "" (clarification_question k)
         <*> optional [] (risk_flags k)
         <*> optional [] (alternative_suggestions k).

(** Keyword arguments that supply [transaction_id] and [confidence]. *)
Definition only (tid : string) (c : PyFloat.float) : kwargs :=
  @mk option None (Some tid) None None None None (Some c) None None None
      None None None None None.
End Result.

(** *** BatchClassificationResponse *)

Module Batch.
Record Fields (F : Type -> Type) : Type := mk {
  schema_version : F string;
  classifications : F (list Result.TransactionClassificationResult);
  suggested_rules : F (list SuggestedRule.t);
  meta : F ClassificationResponseMeta.t
}.

Definition BatchClassificationResponse : Type := Fields Id.

(** The keyword arguments: one key per field name, and the key [_meta],
    the alias of [meta]. *)
Record kwargs : Type := mkKwargs {
  by_name : Fields option;
  _meta : option ClassificationResponseMeta.t
}.

(** [model_config = {"populate_by_name": True}] *)
Definition model_config : ConfigDict :=
  {| frozen := false; validate_assignment := false; populate_by_name := true |}.

(** [Field(default_factory=ClassificationResponseMeta, alias="_meta")] *)
Definition meta_field (k : kwargs) : validated ClassificationResponseMeta.t :=
  optional ClassificationResponseMeta.default
           (lookup_alias model_config (_meta k) (meta (by_name k))).

Definition new (k : kwargs) : validated BatchClassificationResponse :=
  @mk Id <$> Versioning.schema_version_field (schema_version (by_name k))
         <*> required "classifications" (classifications (by_name k))
         <*> optional [] (suggested_rules (by_name k))
         <*> meta_field k.

(** [BatchClassificationResponse(classifications=cs, _meta=m)] and
    [BatchClassificationResponse(classifications=cs, meta=m)] *)
Definition with_alias (cs : list Result.TransactionClassificationResult)
    (m : ClassificationResponseMeta.t) : kwargs :=
  mkKwargs (@mk option None (Some cs) None None) (Some m).

Definition with_name (cs : list Result.TransactionClassificationResult)
    (m : ClassificationResponseMeta.t) : kwargs :=
  mkKwargs (@mk option None (Some cs) None (Some m)) None.
End Batch.

End Classification.

(* ===================================================================== *)
(** ** More of [str] *)

Module PyStrOps.

(** [sep.join(l)] for a one-character separator. *)
Fixpoint join (sep : ascii) (l : list string) : string :=
  match l with
  | [] => EmptyString
  | x :: rest =>
      match rest with
      | [] => x
      | _ :: _ => x ++ String sep (join sep rest)
      end
  end.

(** [s.count(c)] for a one-character [c]. *)
Fixpoint count (c : ascii) (s : string) : nat :=
  match s with
  | EmptyString => O
  | String d r => if Ascii.eqb d c then S (count c r) else count c r
  end.

End PyStrOps.

(* ===================================================================== *)
(** ** Journal entries derived from others *)

Module JournalOps.
Import Journal.

(** The same line with debit and credit exchanged. *)
Definition swap_line (l : JournalEntryLine) : JournalEntryLine :=
  mkLine (account_id l) (account_name l) (credit l) (debit l)
         (description l) (entity_id l) (entity_type l).

(** The same entry with other lines. *)
Definition with_lines (e : JournalEntry) (ls : list JournalEntryLine)
  : JournalEntry :=
  mkEntry (schema_version e) (entry_id e) (entry_date e) (memo e) ls
          (source e) (reference_id e) (is_adjusting e).

(** The reversing entry: every line's debit and credit exchanged. *)
Definition reversed (e : JournalEntry) : JournalEntry :=
  with_lines e (map swap_line (lines e)).

End JournalOps.

(* ===================================================================== *)
(** ** messaging/templates.py *)

Module Templates.
Import Pydantic.

(** A [str] field declared [Field(..., max_length=n)]: required, and at most
    [n] characters. *)
Definition required_str_max (name : string) (n : nat) (input : option string)
  : validated string :=
  match input with
  | None => ValidationError [mkError name missing "Field required"]
  | Some v =>
      if (n <? String.length v)%nat then
        ValidationError
          [mkError name string_too_long
             ("String should have at most " ++ Z_to_string (Z.of_nat n)
              ++ " characters")]
      else Valid v
  end.

Record TemplateButton : Type := mkButton {
  id : string;
  title : string
}.

(** [TemplateButton(id=..., title=...)] *)
Definition new_button (id title : option string) : validated TemplateButton :=
  mkButton <$> required "id" id <*> required_str_max "title" 20 title.

Record InteractiveMessage : Type := mkInteractive {
  body_text : string;
  buttons : list TemplateButton;
  header_text : string;
  footer_text : string
}.

(** [InteractiveMessage(body_text=..., buttons=..., ...)] *)
Definition new_interactive (body_text : option string)
    (buttons : option (list TemplateButton))
    (header_text footer_text : option string) : validated InteractiveMessage :=
  mkInteractive <$> required "body_text" body_text
                <*> optional [] buttons
                <*> optional "" header_text
                <*> optional "" footer_text.

End Templates.

(* ===================================================================== *)
(** ** messaging/message.py *)

Module Messaging.
Import Pydantic.

Section Dict.

(** The type of a Python [dict] and the empty one; the models store dicts
    without looking into them. *)
Variable dict : Type.
Variable empty_dict : dict.

Record Fields (F : Type -> Type) : Type := mk {
  schema_version : F string;
  tenant_id : F string;
  client_id : F string;
  contact_phone : F string;
  contact_name : F string;
  channel : F string;
  template_name : F string;
  template_params : F dict;
  body : F string;
  context_type : F string;
  context_id : F string;
  context_data : F dict
}.

Definition SendMessageRequest : Type := Fields Id.
Definition kwargs : Type := Fields option.

Definition new (k : kwargs) : validated SendMessageRequest :=
  @mk Id <$> Versioning.schema_version_field (schema_version k)
         <*> required "tenant_id" (tenant_id k)
         <*> required "client_id" (client_id k)
         <*> required "contact_phone" (contact_phone k)
         <*> optional "" (contact_name k)
         <*> optional "whatsapp" (channel k)
         <*> optional "" (template_name k)
         <*> optional empty_dict (template_params k)
         <*> optional "" (body k)
         <*> optional "" (context_type k)
         <*> optional "" (context_id k)
         <*> optional empty_dict (context_data k).

(** The constraints the class declares, field by field. *)
Definition violated (k : kwargs) (field : string) : Prop :=
  (field = "schema_version"
     /\ exists s, schema_version k = Some s
                  /\ ~ returns (Versioning.validate_version s))
  \/ (field = "tenant_id" /\ tenant_id k = None)
  \/ (field = "client_id" /\ client_id k = None)
  \/ (field = "contact_phone" /\ contact_phone k = None).

(** [SendMessageRequest()] *)
Definition no_arguments : kwargs :=
  @mk option None None None None None None None None None None None None.

End Dict.

End Messaging.

(* ===================================================================== *)
(** ** enums.py *)

Module Enums.

(** A [StrEnum] class: its members in declaration order, each a name and
    its string value. *)
Definition StrEnum : Type := list (string * string).

Definition SourceSystem : StrEnum :=
  [("HUB", "hub"); ("QBO_LEG", "qbo_leg"); ("GL_LEG", "gl_leg");
   ("AI_TRANSLATOR", "ai_translator"); ("MESSAGING", "messaging");
   ("TAX_ENGINE", "tax_engine")].

Definition AccountType : StrEnum :=
  [("ASSET", "asset"); ("LIABILITY", "liability"); ("EQUITY", "equity");
   ("REVENUE", "revenue"); ("EXPENSE", "expense");
   ("COST_OF_GOODS_SOLD", "cost_of_goods_sold");
   ("OTHER_INCOME", "other_income"); ("OTHER_EXPENSE", "other_expense")].

Definition TransactionType : StrEnum :=
  [("DEBIT", "debit"); ("CREDIT", "credit")].

Definition BankAccountType : StrEnum :=
  [("CHECKING", "checking"); ("SAVINGS", "savings");
   ("CREDIT_CARD", "credit_card"); ("LINE_OF_CREDIT", "line_of_credit");
   ("LOAN", "loan"); ("OTHER", "other")].

Definition ConfidenceBand : StrEnum :=
  [("HIGH", "high"); ("MEDIUM", "medium"); ("LOW", "low");
   ("UNCERTAIN", "uncertain")].

Definition ClassificationSource : StrEnum :=
  [("RULE", "rule"); ("AI", "ai"); ("HISTORICAL", "historical");
   ("CLIENT", "client"); ("ACCOUNTANT", "accountant")].

Definition ReviewStatus : StrEnum :=
  [("PENDING", "pending"); ("APPROVED", "approved"); ("REJECTED", "rejected");
   ("MODIFIED", "modified"); ("AUTO_APPLIED", "auto_applied")].

Definition SuspenseReason : StrEnum :=
  [("LOW_CONFIDENCE", "low_confidence");
   ("NEEDS_CLIENT_INPUT", "needs_client_input");
   ("MONTHLY_CALL", "monthly_call"); ("DECLINED", "declined");
   ("ESCALATED_MAX_CLARIFICATION", "escalated_max_clarification")].

Definition RiskSeverity : StrEnum :=
  [("LOW", "low"); ("MEDIUM", "medium"); ("HIGH", "high");
   ("CRITICAL", "critical")].

Definition MessageDirection : StrEnum :=
  [("INBOUND", "inbound"); ("OUTBOUND", "outbound")].

Definition MessageStatus : StrEnum :=
  [("QUEUED", "queued"); ("SENT", "sent"); ("DELIVERED", "delivered");
   ("READ", "read"); ("FAILED", "failed")].

Definition ConsentType : StrEnum :=
  [("OPT_IN", "opt_in"); ("OPT_OUT", "opt_out"); ("REVOKED", "revoked")].

Definition ConversationStatus : StrEnum :=
  [("ACTIVE", "active"); ("WAITING_REPLY", "waiting_reply");
   ("TIMED_OUT", "timed_out"); ("COMPLETED", "completed")].

Definition EntityType : StrEnum :=
  [("SOLE_PROPRIETOR", "sole_proprietor"); ("LLC", "llc"); ("S_CORP", "s_corp");
   ("C_CORP", "c_corp"); ("PARTNERSHIP", "partnership")].

Definition TaxFilingType : StrEnum :=
  [("SCHEDULE_C", "schedule_c"); ("FORM_1120S", "form_1120s");
   ("FORM_1120", "form_1120"); ("FORM_1065", "form_1065")].

(** The fifteen classes of the module. *)
Definition classes : list StrEnum :=
  [SourceSystem; AccountType; TransactionType; BankAccountType;
   ConfidenceBand; ClassificationSource; ReviewStatus; SuspenseReason;
   RiskSeverity; MessageDirection; MessageStatus; ConsentType;
   ConversationStatus; EntityType; TaxFilingType].

(** [E(v)]: the member whose value is [v]; [ValueError] when there is none. *)
Fixpoint of_value (E : StrEnum) (v : string) : result string :=
  match E with
  | [] => Raise (ValueError "not a valid value")
  | (name, value) :: rest =>
      if String.eqb value v then Ok name else of_value rest v
  end.

(** [E[name].value]: the value of the member called [name]. *)
Fixpoint value_of (E : StrEnum) (name : string) : option string :=
  match E with
  | [] => None
  | (n, value) :: rest =>
      if String.eqb n name then Some value else value_of rest name
  end.

Fixpoint distinct (l : list string) : bool :=
  match l with
  | [] => true
  | x :: rest => negb (existsb (String.eqb x) rest) && distinct rest
  end.

End Enums.

(* ===================================================================== *)
(** ** Constraints of [TransactionClassificationResult], field by field *)

Module ClassificationOps.
Import Classification.

(** [result_violated k f]: the keyword arguments [k] break the constraint
    that the class declares for field [f]. *)
Definition result_violated (k : Result.kwargs) (field : string) : Prop :=
  (field = "schema_version"
     /\ exists s, Result.schema_version k = Some s
                  /\ ~ returns (Versioning.validate_version s))
  \/ (field = "transaction_id" /\ Result.transaction_id k = None)
  \/ (field = "confidence"
      /\ (Result.confidence k = None
          \/ exists v, Result.confidence k = Some v
                       /\ ~ PyFloat.in_interval 0 1 v)).

(** [TransactionClassificationResult(schema_version=sv, confidence=c)] *)
Definition without_transaction_id (sv : string) (c : PyFloat.float)
  : Result.kwargs :=
  @Result.mk option (Some sv) None None None None None (Some c) None None None
             None None None None None.

End ClassificationOps.

(* ===================================================================== *)
(** ** events/audit_event.py *)

Module Audit.
Import Pydantic.

Section Types.

(** The types of a Python [dict] and of a [datetime]; the model stores
    both without looking into them. *)
Variable dict : Type.
Variable empty_dict : dict.
Variable datetime : Type.

Record Fields (F : Type -> Type) : Type := mk {
  audit_id : F string;
  event_type : F string;
  actor_id : F string;
  actor_type : F string;
  tenant_id : F string;
  resource_type : F string;
  resource_id : F string;
  action : F string;
  before_state : F dict;
  after_state : F dict;
  metadata : F dict;
  timestamp : F datetime;
  ip_address : F string
}.

Definition AuditEvent : Type := Fields Id.
Definition kwargs : Type := Fields option.

(** [AuditEvent(...)]; [now] is what [utc_now()] returns during the call. *)
Definition new (now : datetime) (k : kwargs) : validated AuditEvent :=
  @mk Id <$> optional "" (audit_id k)
         <*> optional "" (event_type k)
         <*> optional "" (actor_id k)
         <*> optional "" (actor_type k)
         <*> optional "" (tenant_id k)
         <*> optional "" (resource_type k)
         <*> optional "" (resource_id k)
         <*> optional "" (action k)
         <*> optional empty_dict (before_state k)
         <*> optional empty_dict (after_state k)
         <*> optional empty_dict (metadata k)
         <*> optional now (timestamp k)
         <*> optional "" (ip_address k).

(** [AuditEvent] declares no [model_config]. *)
Definition model_config : ConfigDict := default_config.

(** [self.action = v] *)
Definition set_action (self : AuditEvent) (v : string) : result AuditEvent :=
  setattr model_config (fun s : string => Ok s)
    (fun (e : AuditEvent) (s : string) =>
       @mk Id (audit_id e) (event_type e) (actor_id e) (actor_type e)
              (tenant_id e) (resource_type e) (resource_id e) s
              (before_state e) (after_state e) (metadata e) (timestamp e)
              (ip_address e))
    self v.

(** [AuditEvent()] *)
Definition no_arguments : kwargs :=
  @mk option None None None None None None None None None None None None None.

End Types.

End Audit.

(* ===================================================================== *)
(** ** Sample inputs *)

Module Samples.
Import PyDecimal Journal.

Definition line (d c : Decimal) : JournalEntryLine :=
  mkLine "1000" "" d c "" "" "".

Definition entry (ls : list JournalEntryLine) : JournalEntry :=
  mkEntry "1.0" "" (mkDate 2025 1 15) "" ls "" "" false.

(** [Decimal("100.00")] *)
Definition hundred : Decimal := mkDecimal false 10000 (-2).

(** One line debits 100.00, the other credits 100.00. *)
Definition balanced_entry : JournalEntry :=
  entry [line hundred zero; line zero hundred].

(** [Decimal("1.00000000000000000000000000001")]: thirty digits. *)
Definition one_and_a_bit : Decimal :=
  mkDecimal false 100000000000000000000000000001 (-29).

(** [Decimal("1")] *)
Definition one : Decimal := mkDecimal false 1 0.

(** A single line whose debit exceeds its credit by [1E-29]. *)
Definition rounded_entry : JournalEntry :=
  entry [line one_and_a_bit one].

(** The floats [0.5], [1.1] and [-0.1]. *)
Definition half : PyFloat.float := PyFloat.Finite false 1 (-1).
Definition one_point_one : PyFloat.float :=
  PyFloat.Finite false 2476979795053773 (-51).
Definition minus_point_one : PyFloat.float :=
  PyFloat.Finite true 3602879701896397 (-55).

Definition meta_req_456 : Classification.ClassificationResponseMeta.t :=
  Classification.ClassificationResponseMeta.mk "req_456" 0 "" 0 0 0 0.

End Samples.

(* ===================================================================== *)
(** * Properties *)

Unset Implicit Arguments.
(** ** Numbers written as an integer times a power of a base *)

Section Scaled.
Local Open Scope Z_scope.

Variable base : Z.
Hypothesis base_pos : 0 < base.

Lemma base_nonzero : ~ (inject_Z base == 0)%Q.
Proof. unfold Qeq. simpl. lia. Qed.

Lemma power_pos e : (0 < (inject_Z base) ^ e)%Q.
Proof.
  apply Qpower_0_lt. unfold Qlt. simpl. lia.
Qed.

Lemma scaled_align z e e' :
  e' <= e -> (scaled base z e == scaled base (z * base ^ (e - e')) e')%Q.
Proof.
  intros H. unfold scaled.
  replace e with ((e - e') + e') at 1 by lia.
  rewrite Qpower_plus by apply base_nonzero.
  rewrite inject_Z_mult, Zpower_Qpower by lia.
  ring.
Qed.

Lemma scaled_compare_same z1 z2 e :
  (scaled base z1 e ?= scaled base z2 e)%Q = (z1 ?= z2).
Proof.
  unfold scaled.
  pose proof (power_pos e) as Hp.
  destruct (Z.compare_spec z1 z2) as [E | L | G].
  - subst. apply Qeq_alt. reflexivity.
  - apply Qlt_alt. apply Qmult_lt_r; [exact Hp|]. rewrite <- Zlt_Qlt. exact L.
  - apply Qgt_alt. apply Qmult_lt_r; [exact Hp|]. rewrite <- Zlt_Qlt. exact G.
Qed.

Lemma scaled_compare z1 e1 z2 e2 :
  (z1 * base ^ (e1 - Z.min e1 e2) ?= z2 * base ^ (e2 - Z.min e1 e2))
  = (scaled base z1 e1 ?= scaled base z2 e2)%Q.
Proof.
  rewrite <- (scaled_compare_same _ _ (Z.min e1 e2)).
  rewrite <- (scaled_align z1 e1 (Z.min e1 e2)) by lia.
  rewrite <- (scaled_align z2 e2 (Z.min e1 e2)) by lia.
  reflexivity.
Qed.

End Scaled.


(** ** versioning.py *)

Module VersioningFacts.
Import PyStr Pydantic Versioning.

Lemma split_not_nil sep s : split sep s <> [].
Proof.
  destruct s as [|c r]; simpl; [discriminate|].
  destruct (Ascii.eqb c sep); [discriminate|].
  destruct (split sep r); discriminate.
Qed.

Lemma split_free sep s : free_of sep s = true -> split sep s = [s].
Proof.
  unfold free_of.
  induction s as [|c r IH]; simpl; intros H; [reflexivity|].
  apply andb_prop in H. destruct H as [Hc Hr].
  apply negb_true_iff in Hc. rewrite Hc, (IH Hr). reflexivity.
Qed.

Lemma split_app sep a r :
  free_of sep a = true -> split sep (a ++ String sep r) = a :: split sep r.
Proof.
  unfold free_of.
  induction a as [|c a IH]; simpl; intros H.
  - rewrite Ascii.eqb_refl. reflexivity.
  - apply andb_prop in H. destruct H as [Hc Ha].
    apply negb_true_iff in Hc. rewrite Hc, (IH Ha). reflexivity.
Qed.

Lemma split_two sep s a b :
  split sep s = [a; b] -> s = a ++ String sep b /\ free_of sep a = true /\ free_of sep b = true.
Proof.
  unfold free_of.
  revert a b. induction s as [|c r IH]; simpl; intros a b H; [discriminate|].
  destruct (Ascii.eqb_spec c sep) as [->|Hne].
  - injection H as <- Hr. 
    assert (Hb : all_chars (fun c => negb (Ascii.eqb c sep)) b = true /\ r = b).
    { clear IH. revert b Hr. induction r as [|d r IHr]; simpl; intros b Hr.
      - injection Hr as <-. auto.
      - destruct (Ascii.eqb_spec d sep);
          [injection Hr as _ Hn; exfalso; exact (split_not_nil _ _ Hn)|].
        destruct (split sep r) as [|p ps] eqn:E; [exfalso; exact (split_not_nil _ _ E)|].
        injection Hr as <- ->. destruct (IHr p eq_refl) as [Hp ->].
        simpl. rewrite Hp. destruct (Ascii.eqb_spec d sep); [contradiction|]. auto. }
    destruct Hb as [Hb ->]. auto.
  - destruct (split sep r) as [|p ps] eqn:E; [discriminate|].
    injection H as <- ->. destruct (IH p b eq_refl) as [-> [Hp Hb]].
    simpl. rewrite Hp. destruct (Ascii.eqb_spec c sep); [contradiction|]. auto.
Qed.

Lemma digits_free digit s :
  digit "."%char = false -> all_chars digit s = true -> free_of "." s = true.
Proof.
  intros Hd. unfold free_of.
  induction s as [|c r IH]; simpl; intros H; [reflexivity|].
  apply andb_prop in H. destruct H as [Hc Hr]. rewrite (IH Hr), andb_true_r.
  destruct (Ascii.eqb_spec c "."); [subst; congruence|reflexivity].
Qed.

Lemma isdigit_digits1 s : isdigit s = true <-> digits1 isdigit_char s.
Proof.
  unfold digits1. destruct s as [|c r]; simpl.
  - split; [discriminate|intros [H _]; congruence].
  - split; [intros H; split; [discriminate|exact H]|intros [_ H]; exact H].
Qed.

Lemma parts_check s :
  negb (List.length (split "." s) =? 2)%nat || negb (forallb isdigit (split "." s)) = false
  <-> major_minor isdigit_char s.
Proof.
  unfold major_minor. rewrite orb_false_iff, !negb_false_iff. split.
  - intros [Hl Hd].
    destruct (split "." s) as [|a [|b [|x l]]] eqn:E; try discriminate Hl.
    simpl in Hd. rewrite andb_true_r in Hd.
    apply andb_prop in Hd. destruct Hd as [Ha Hb].
    destruct (split_two _ _ _ _ E) as [-> _].
    exists a, b. rewrite <- !isdigit_digits1. auto.
  - intros (a & b & -> & Ha & Hb).
    rewrite split_app by (apply digits_free with isdigit_char; [reflexivity|apply Ha]).
    rewrite split_free by (apply digits_free with isdigit_char; [reflexivity|apply Hb]).
    apply isdigit_digits1 in Ha, Hb. simpl. rewrite Ha, Hb. auto.
Qed.

Lemma validate_version_ok s :
  validate_version s = Ok s <-> major_minor isdigit_char s.
Proof.
  rewrite <- parts_check. unfold validate_version. cbv zeta.
  destruct (negb _ || negb _); split; intros H; try reflexivity; discriminate.
Qed.

Lemma validate_version_cases s :
  validate_version s = Ok s \/ exists m, validate_version s = Raise (ValueError m).
Proof.
  unfold validate_version.
  destruct (negb _ || negb _); [right; eexists; reflexivity|left; reflexivity].
Qed.

Lemma all_chars_app p a b :
  all_chars p (a ++ b) = all_chars p a && all_chars p b.
Proof.
  induction a as [|c a IH]; simpl; [reflexivity|]. rewrite IH, andb_assoc. reflexivity.
Qed.

Lemma ascii_digit_decimal c :
  (nat_of_ascii c <? 128)%nat = true -> isdigit_char c = isdecimal_char c.
Proof.
  unfold isdigit_char, isdecimal_char. intros H. apply Nat.ltb_lt in H.
  replace (nat_of_ascii c =? 178)%nat with false by (symmetry; apply Nat.eqb_neq; lia).
  replace (nat_of_ascii c =? 179)%nat with false by (symmetry; apply Nat.eqb_neq; lia).
  replace (nat_of_ascii c =? 185)%nat with false by (symmetry; apply Nat.eqb_neq; lia).
  rewrite !orb_false_r. reflexivity.
Qed.

Lemma ascii_digits_decimal s :
  is_ascii s = true -> all_chars isdigit_char s = all_chars isdecimal_char s.
Proof.
  unfold is_ascii. induction s as [|c r IH]; simpl; intros H; [reflexivity|].
  apply andb_prop in H. destruct H as [Hc Hr].
  rewrite (ascii_digit_decimal _ Hc), (IH Hr). reflexivity.
Qed.

Lemma major_minor_ascii s :
  is_ascii s = true -> (major_minor isdigit_char s <-> major_minor isdecimal_char s).
Proof.
  intros Hs. unfold major_minor, digits1.
  split; intros (a & b & E & [Ha1 Ha2] & [Hb1 Hb2]); exists a, b; subst s;
    unfold is_ascii in Hs; rewrite all_chars_app in Hs; simpl in Hs;
    apply andb_prop in Hs; destruct Hs as [Hsa Hsb];
    pose proof (ascii_digits_decimal a Hsa) as Ea;
    pose proof (ascii_digits_decimal b Hsb) as Eb;
    repeat split; congruence.
Qed.

Lemma split_head s : exists ps, split "." s = before_first_dot s :: ps.
Proof.
  induction s as [|c r [ps IH]]; simpl.
  - exists []. reflexivity.
  - destruct (Ascii.eqb c "."); [eexists; reflexivity|].
    rewrite IH. eexists; reflexivity.
Qed.

Lemma major_of s : index0 (split "." s) = Ok (before_first_dot s).
Proof. destruct (split_head s) as [ps ->]. reflexivity. Qed.

Lemma before_first_dot_whole s :
  contains_dot s = false -> before_first_dot s = s.
Proof.
  induction s as [|c r IH]; simpl; intros H; [reflexivity|].
  apply orb_false_iff in H. destruct H as [Hc Hr]. rewrite Hc, (IH Hr). reflexivity.
Qed.

Lemma is_compatible_eq self other :
  is_compatible self other
  = Ok (String.eqb (before_first_dot (schema_version self)) (before_first_dot other)).
Proof. unfold is_compatible. rewrite !major_of. reflexivity. Qed.

End VersioningFacts.


Module VersioningSpec.
Import PyStr Pydantic Versioning VersioningFacts.

Lemma new_eq input :
  Versioning.new input
  = match schema_version_field input with
    | Valid v => Valid (mkVersionedSchema v)
    | ValidationError es => ValidationError es
    end.
Proof.
  unfold Versioning.new, ap, pure.
  destruct (schema_version_field input); reflexivity.
Qed.

Lemma field_supplied s :
  (major_minor isdigit_char s /\ schema_version_field (Some s) = Valid s)
  \/ (~ major_minor isdigit_char s
      /\ exists m, schema_version_field (Some s)
                   = ValidationError [mkError "schema_version" value_error m]).
Proof.
  unfold schema_version_field, validated_by.
  destruct (validate_version_cases s) as [H | [m H]]; rewrite H.
  - left. split; [apply validate_version_ok; exact H | reflexivity].
  - right. split; [|eexists; reflexivity].
    intros MM. apply validate_version_ok in MM. congruence.
Qed.

Lemma schema_version_field_cases (input : option string) :
  (exists v, schema_version_field input = Valid v
             /\ forall s, input = Some s -> returns (validate_version s))
  \/ (exists s m, input = Some s /\ ~ returns (validate_version s)
                  /\ schema_version_field input
                     = ValidationError [mkError "schema_version" value_error m]).
Proof.
  destruct input as [s|].
  - unfold schema_version_field, validated_by.
    destruct (validate_version_cases s) as [H | [m H]]; rewrite H.
    + left. exists s. split; [reflexivity|]. intros s' E. injection E as <-.
      exists s. exact H.
    + right. exists s. eexists. split; [reflexivity|]. split; [|reflexivity].
      intros [a Ha]. congruence.
  - left. exists default_schema_version. split; [reflexivity|]. discriminate.
Qed.

(** C1, as stated, fails: the version string made of the superscript two, a
    dot and a zero is accepted, although its major segment is not a run of
    decimal digits, so the string does not match [^\d+\.\d+$]. *)
Lemma superscript_version_accepted :
  let s := String superscript_two ".0" in
  Versioning.new (Some s) = Valid (mkVersionedSchema s)
  /\ ~ major_minor isdecimal_char s.
Proof.
  split; [reflexivity|].
  intros (a & b & E & [Ha1 Ha2] & _).
  destruct a as [|c a]; [congruence|].
  simpl in E. injection E as <- _. discriminate Ha2.
Qed.

(** C1 (amended).  For every string [s], constructing a [VersionedSchema]
    with [schema_version=s] succeeds if and only if [s] is a non-empty run of
    [str.isdigit] characters, a dot, and a non-empty run of [str.isdigit]
    characters; it then stores [s] unchanged, and otherwise raises one
    validation error located at [schema_version].  When [s] has only ASCII
    characters the condition is the pattern [^\d+\.\d+$].  A record that
    inherits [VersionedSchema] accepts and rejects the same strings. *)
Theorem schema_version_accepted_iff (s : string) :
  (Versioning.new (Some s) = Valid (mkVersionedSchema s)
     <-> major_minor isdigit_char s)
  /\ ((exists m, Versioning.new (Some s)
                 = ValidationError [mkError "schema_version" value_error m])
     <-> ~ major_minor isdigit_char s)
  /\ (forall r, Versioning.new (Some s) = Valid r -> schema_version r = s)
  /\ (is_ascii s = true ->
      (Versioning.new (Some s) = Valid (mkVersionedSchema s)
         <-> major_minor isdecimal_char s))
  /\ (forall d, is_valid (Journal.new (Some s) None (Some d) None None None None None)
                = is_valid (Versioning.new (Some s))).
Proof.
  rewrite new_eq.
  assert (A : match schema_version_field (Some s) with
              | Valid v => Valid (mkVersionedSchema v)
              | ValidationError es => ValidationError es
              end = Valid (mkVersionedSchema s) <-> major_minor isdigit_char s).
  { destruct (field_supplied s) as [[MM E] | [MM [m E]]]; rewrite E.
    - tauto.
    - split; [discriminate | contradiction]. }
  split; [exact A|]. split; [|split; [|split]].
  - destruct (field_supplied s) as [[MM E] | [MM [m E]]]; rewrite E.
    + split; [intros [m H]; discriminate | contradiction].
    + split; [tauto | intros _; exists m; reflexivity].
  - intros r. destruct (field_supplied s) as [[MM E] | [MM [m E]]]; rewrite E.
    + intros H. injection H as <-. reflexivity.
    + discriminate.
  - intros Hs. rewrite A. apply major_minor_ascii. exact Hs.
  - intros d. unfold Journal.new.
    destruct (field_supplied s) as [[MM E] | [MM [m E]]]; rewrite E; reflexivity.
Qed.

(** C3.  [is_compatible] returns true exactly when the text before the first
    dot of [self.schema_version] equals, as a string, the text before the
    first dot of [other_version], and false exactly when the two differ;
    "1.0" is compatible with "1.99", not with "2.0", and a major "1" is not
    compatible with a major "01". *)
Theorem is_compatible_iff_same_major :
  (forall (self : VersionedSchema) (other_version : string),
      (is_compatible self other_version = Ok true
         <-> before_first_dot (schema_version self) = before_first_dot other_version)
      /\ (is_compatible self other_version = Ok false
         <-> before_first_dot (schema_version self) <> before_first_dot other_version))
  /\ is_compatible (mkVersionedSchema "1.0") "1.99" = Ok true
  /\ is_compatible (mkVersionedSchema "1.0") "2.0" = Ok false
  /\ is_compatible (mkVersionedSchema "1.0") "01.0" = Ok false.
Proof.
  split; [|repeat split].
  intros self other_version. rewrite is_compatible_eq.
  destruct (String.eqb_spec (before_first_dot (schema_version self))
                            (before_first_dot other_version)) as [E | E].
  - split; split; intros H; try reflexivity; try exact E; try discriminate; contradiction.
  - split; split; intros H; try reflexivity; try exact E; try discriminate; contradiction.
Qed.

(** C5.  [is_compatible] raises for no [self] and no [other_version]: it
    returns the comparison of the major of [self] with the text of
    [other_version] before its first dot, or with all of [other_version]
    when that has no dot. *)
Theorem is_compatible_never_raises (self : VersionedSchema) (other_version : string) :
  exists b,
    is_compatible self other_version = Ok b
    /\ b = String.eqb (before_first_dot (schema_version self))
                      (if contains_dot other_version
                       then before_first_dot other_version
                       else other_version).
Proof.
  eexists. split; [apply is_compatible_eq|].
  destruct (contains_dot other_version) eqn:E; [reflexivity|].
  rewrite (before_first_dot_whole _ E). reflexivity.
Qed.

End VersioningSpec.

(** ** decimal.Decimal *)

Module DecimalFacts.
Import PyDecimal.
Local Open Scope Z_scope.

Lemma cmp_Q a b : cmp a b = (to_Q a ?= to_Q b)%Q.
Proof.
  unfold cmp, aligned, to_Q. apply scaled_compare. lia.
Qed.

Lemma eqb_Q a b : eqb a b = true <-> (to_Q a == to_Q b)%Q.
Proof.
  unfold eqb. rewrite cmp_Q, Qeq_alt.
  destruct (to_Q a ?= to_Q b)%Q; split; intros H; congruence.
Qed.

Lemma gtb_Q a b : gtb a b = true <-> (to_Q b < to_Q a)%Q.
Proof.
  unfold gtb. rewrite cmp_Q, Qgt_alt.
  destruct (to_Q a ?= to_Q b)%Q; split; intros H; congruence.
Qed.

Lemma ltb_Q a b : ltb a b = true <-> (to_Q a < to_Q b)%Q.
Proof.
  unfold ltb. rewrite cmp_Q, Qlt_alt.
  destruct (to_Q a ?= to_Q b)%Q; split; intros H; congruence.
Qed.

Lemma to_Q_aligned e d :
  e <= exponent d -> (to_Q d == scaled 10 (aligned e d) e)%Q.
Proof.
  intros H. unfold to_Q, aligned. apply scaled_align; lia.
Qed.

(** *** Digits *)

Lemma ndigits_fuel_le fuel : forall (c : N) (n : Z),
  1 <= n -> Z.of_N c < 10 ^ n -> ndigits_fuel fuel c <= n.
Proof.
  induction fuel as [|f IH]; intros c n Hn Hc; cbn [ndigits_fuel]; [lia|].
  destruct (N.ltb_spec c 10) as [L | G]; [lia|].
  assert (2 <= n).
  { destruct (Z.eq_dec n 1) as [->|]; [|lia]. change (10 ^ 1) with 10 in Hc. lia. }
  assert (Hq : Z.of_N (c / 10) < 10 ^ (n - 1)).
  { rewrite N2Z.inj_div. change (Z.of_N 10) with 10.
    apply Z.div_lt_upper_bound; [lia|].
    replace n with (1 + (n - 1)) in Hc by lia.
    rewrite Z.pow_add_r in Hc by lia. change (10 ^ 1) with 10 in Hc. exact Hc. }
  assert (Hn' : 1 <= n - 1) by lia.
  pose proof (IH (c / 10)%N (n - 1) Hn' Hq) as IH'.
  clear - IH'. lia.
Qed.

Lemma ndigits_le c n : 1 <= n -> Z.of_N c < 10 ^ n -> ndigits c <= n.
Proof. apply ndigits_fuel_le. Qed.

(** *** Addition *)

Lemma abs_signed d : Z.abs (signed d) = Z.of_N (coefficient d).
Proof. unfold signed. destruct (sign d); lia. Qed.

Lemma signed_add_exact a b :
  signed (add_exact a b)
  = aligned (Z.min (exponent a) (exponent b)) a
    + aligned (Z.min (exponent a) (exponent b)) b.
Proof.
  unfold add_exact, signed at 1. cbv zeta. simpl.
  set (z := aligned _ a + aligned _ b).
  destruct (Z.ltb_spec z 0); [lia|].
  destruct (Z.eqb_spec z 0) as [E|E].
  - rewrite E. destruct (sign a && sign b); reflexivity.
  - lia.
Qed.

Lemma aligned_aligned e e' d :
  e' <= e -> e <= exponent d ->
  aligned e d * 10 ^ (e - e') = aligned e' d.
Proof.
  intros H1 H2. unfold aligned.
  rewrite <- Z.mul_assoc, <- Z.pow_add_r by lia.
  f_equal. f_equal. lia.
Qed.

Lemma aligned_add_exact e a b :
  e <= exponent a -> e <= exponent b ->
  aligned e (add_exact a b) = aligned e a + aligned e b.
Proof.
  intros Ha Hb. unfold aligned at 1. rewrite signed_add_exact.
  change (exponent (add_exact a b)) with (Z.min (exponent a) (exponent b)).
  rewrite Z.mul_add_distr_r, !aligned_aligned by lia. reflexivity.
Qed.

(** The sum before rounding is the sum of the values. *)
Lemma to_Q_add_exact a b : (to_Q (add_exact a b) == to_Q a + to_Q b)%Q.
Proof.
  set (e := Z.min (exponent a) (exponent b)).
  rewrite (to_Q_aligned e a), (to_Q_aligned e b) by (subst e; lia).
  unfold to_Q at 1. rewrite signed_add_exact. fold e.
  change (exponent (add_exact a b)) with e.
  unfold scaled. rewrite inject_Z_plus. ring.
Qed.

(** A value that needs no rounding is left as it is. *)
Lemma fix_exact d :
  Etiny <= exponent d <= 0 -> Z.of_N (coefficient d) < 10 ^ prec ->
  fix_ d = Ok d.
Proof.
  intros He Hc. unfold fix_.
  destruct (N.eqb_spec (coefficient d) 0) as [E|E].
  - destruct d as [s c e]. simpl in *. subst c. f_equal. f_equal.
    unfold Emax, Etiny, Emin, prec in *. lia.
  - pose proof (ndigits_le (coefficient d) prec ltac:(unfold prec; lia) Hc) as Hn.
    cbv zeta.
    destruct (Z.gtb_spec (ndigits (coefficient d) + exponent d - prec) Etop) as [G|G].
    + unfold Etop, Emax, prec in *. lia.
    + destruct (Z.ltb_spec (exponent d)
                  (Z.max (ndigits (coefficient d) + exponent d - prec) Etiny)) as [L|L].
      * lia.
      * reflexivity.
Qed.

Lemma coefficient_le_aligned e d :
  e <= exponent d -> Z.of_N (coefficient d) <= Z.abs (aligned e d).
Proof.
  intros H. unfold aligned. rewrite Z.abs_mul, abs_signed.
  assert (0 < 10 ^ (exponent d - e)) by (apply Z.pow_pos_nonneg; lia).
  rewrite (Z.abs_eq (10 ^ _)) by lia. nia.
Qed.

Lemma abs_units_nonneg k xs : 0 <= abs_units k xs.
Proof. induction xs as [|x xs IH]; simpl; lia. Qed.

Lemma add_fits k acc x :
  0 <= k <= - Etiny ->
  - k <= exponent acc <= 0 -> - k <= exponent x ->
  Z.abs (aligned (- k) acc) + Z.abs (aligned (- k) x) < 10 ^ prec ->
  add acc x = Ok (add_exact acc x).
Proof.
  intros Hk Ha Hx Hb. unfold add. apply fix_exact.
  - change (exponent (add_exact acc x)) with (Z.min (exponent acc) (exponent x)). lia.
  - pose proof (coefficient_le_aligned (- k) (add_exact acc x)) as H.
    change (exponent (add_exact acc x)) with (Z.min (exponent acc) (exponent x)) in H.
    rewrite aligned_add_exact in H by lia. lia.
Qed.

(** [ndigits] is the length of the decimal numeral: the fuel suffices. *)
Lemma ndigits_fuel_bounds fuel : forall c : N,
  Z.of_N c < 2 ^ Z.of_nat fuel ->
  (c = 0%N \/ 10 ^ (ndigits_fuel fuel c - 1) <= Z.of_N c)
  /\ Z.of_N c < 10 ^ ndigits_fuel fuel c /\ 1 <= ndigits_fuel fuel c.
Proof.
  induction fuel as [|f IH]; intros c Hc; cbn [ndigits_fuel].
  - change (2 ^ Z.of_nat 0) with 1 in Hc. split; [left; lia|].
    change (10 ^ 1) with 10. lia.
  - destruct (N.ltb_spec c 10) as [L | G].
    + change (10 ^ (1 - 1)) with 1. change (10 ^ 1) with 10. lia.
    + assert (Hq : Z.of_N (c / 10) < 2 ^ Z.of_nat f).
      { rewrite N2Z.inj_div. change (Z.of_N 10) with 10.
        apply Z.div_lt_upper_bound; [lia|].
        rewrite Nat2Z.inj_succ, Z.pow_succ_r in Hc by lia.
        assert (0 < 2 ^ Z.of_nat f) by (apply Z.pow_pos_nonneg; lia). lia. }
      destruct (IH (c / 10)%N Hq) as (Hlo & Hhi & Hone).
      set (n := ndigits_fuel f (c / 10)) in *.
      assert (Hc10 : Z.of_N (c / 10) = Z.of_N c / 10) by (rewrite N2Z.inj_div; reflexivity).
      rewrite Hc10 in Hlo, Hhi.
      replace (1 + n - 1) with (1 + (n - 1)) by lia.
      rewrite !Z.pow_add_r by lia. change (10 ^ 1) with 10.
      assert (Hdm := Z.div_mod (Z.of_N c) 10 ltac:(lia)).
      assert (Hm := Z.mod_pos_bound (Z.of_N c) 10 ltac:(lia)).
      split; [right|split; [|lia]].
      * destruct Hlo as [Hz | Hlo].
        -- exfalso. assert (Z.of_N (c / 10) = 0) by (rewrite Hz; reflexivity). lia.
        -- lia.
      * lia.
Qed.

Lemma ndigits_bounds c :
  (c = 0%N \/ 10 ^ (ndigits c - 1) <= Z.of_N c) /\ Z.of_N c < 10 ^ ndigits c.
Proof.
  destruct (ndigits_fuel_bounds (N.to_nat (N.size c)) c) as (H1 & H2 & _); [|auto].
  rewrite N_nat_Z.
  destruct c as [|p]; [reflexivity|].
  pose proof (N.size_gt (N.pos p)) as H.
  apply N2Z.inj_lt in H. rewrite N2Z.inj_pow in H. exact H.
Qed.

(** Sums as Python prints them: [Decimal(10**28) + 1] and
    [0 + Decimal("1.00000000000000000000000000001")] are rounded to 28
    digits, a tie goes to the even digit, and 12.34 + 0.66 is exact. *)
Example add_rounds_29_digits :
  add (mkDecimal false 10000000000000000000000000000 0) (mkDecimal false 1 0)
  = Ok (mkDecimal false 1000000000000000000000000000 1).
Proof. vm_compute. reflexivity. Qed.

Example add_rounds_30_digits :
  add zero (mkDecimal false 100000000000000000000000000001 (-29))
  = Ok (mkDecimal false 1000000000000000000000000000 (-27)).
Proof. vm_compute. reflexivity. Qed.

Example add_half_to_even :
  add zero (mkDecimal false 10000000000000000000000000025 0)
  = Ok (mkDecimal false 1000000000000000000000000002 1)
  /\ add zero (mkDecimal false 10000000000000000000000000035 0)
     = Ok (mkDecimal false 1000000000000000000000000004 1).
Proof. split; vm_compute; reflexivity. Qed.

Example add_cents :
  add (mkDecimal false 1234 (-2)) (mkDecimal false 66 (-2))
  = Ok (mkDecimal false 1300 (-2)).
Proof. vm_compute. reflexivity. Qed.

Example add_overflows :
  add (mkDecimal false 9 999999) (mkDecimal false 9 999999) = Raise DecimalOverflow.
Proof. vm_compute. reflexivity. Qed.

End DecimalFacts.

Module SumFacts.
Import PyDecimal DecimalFacts.
Local Open Scope Z_scope.

Lemma sum_from k xs : forall acc,
  0 <= k <= - Etiny ->
  - k <= exponent acc <= 0 ->
  Forall (fun d => - k <= exponent d) xs ->
  Z.abs (aligned (- k) acc) + abs_units k xs < 10 ^ prec ->
  exists t,
    fold_left (fun acc x => a <- acc ;; add a x) xs (Ok acc) = Ok t
    /\ - k <= exponent t <= 0
    /\ aligned (- k) t = aligned (- k) acc + total_units k xs.
Proof.
  induction xs as [|x xs IH]; intros acc Hk Ha Hf Hb.
  - exists acc. cbn. repeat split; lia.
  - inversion Hf as [|? ? Hx Hxs]; subst.
    pose proof (abs_units_nonneg k xs) as Hnn.
    change (abs_units k (x :: xs))
      with (Z.abs (aligned (- k) x) + abs_units k xs) in Hb.
    change (total_units k (x :: xs))
      with (aligned (- k) x + total_units k xs).
    cbn [fold_left bind].
    rewrite (add_fits k acc x) by lia.
    destruct (IH (add_exact acc x)) as (t & Ht & He & Hv); try assumption.
    + change (exponent (add_exact acc x)) with (Z.min (exponent acc) (exponent x)). lia.
    + rewrite aligned_add_exact by lia. lia.
    + exists t. rewrite aligned_add_exact in Hv by lia. repeat split; try lia. exact Ht.
Qed.

(** Within the precision, [sum] returns, and returns the exact total. *)
Lemma sum_fits k xs :
  0 <= k <= - Etiny -> fits k xs ->
  exists t, sum xs = Ok t /\ - k <= exponent t <= 0
            /\ aligned (- k) t = total_units k xs.
Proof.
  intros Hk [Hf Hb]. unfold sum.
  assert (Hz : aligned (- k) zero = 0) by apply Z.mul_0_l.
  destruct (sum_from k xs zero Hk) as (t & Ht & He & Hv).
  - change (exponent zero) with 0. lia.
  - exact Hf.
  - rewrite Hz. change (Z.abs 0) with 0. lia.
  - exists t. rewrite Hz in Hv. repeat split; try lia; assumption.
Qed.

Lemma sum_Q_from k xs : forall q,
  Forall (fun d => - k <= exponent d) xs ->
  (fold_left (fun acc x => acc + to_Q x) xs q
   == q + scaled 10 (total_units k xs) (- k))%Q.
Proof.
  induction xs as [|x xs IH]; intros q Hf; simpl.
  - unfold scaled. simpl. ring.
  - inversion Hf as [|? ? Hx Hxs]; subst.
    rewrite IH by assumption.
    rewrite (to_Q_aligned (- k) x) by lia.
    unfold scaled. rewrite inject_Z_plus. ring.
Qed.

Lemma sum_Q_units k xs :
  Forall (fun d => - k <= exponent d) xs ->
  (sum_Q xs == scaled 10 (total_units k xs) (- k))%Q.
Proof.
  intros Hf. unfold sum_Q. rewrite (sum_Q_from k xs 0%Q Hf). ring.
Qed.

End SumFacts.

(** ** common/money.py *)

Module MoneySpec.
Import PyDecimal DecimalFacts Money.

(** C4.  Of [is_positive()], [is_negative()] and [is_zero()] exactly one
    returns true, for every [Money]; they hold when the amount is above,
    below and equal to zero. *)
Theorem money_sign_partition (m : Money) :
  (is_positive m = true <-> (0 < to_Q (amount m))%Q)
  /\ (is_negative m = true <-> (to_Q (amount m) < 0)%Q)
  /\ (is_zero m = true <-> (to_Q (amount m) == 0)%Q)
  /\ ((is_positive m = true /\ is_negative m = false /\ is_zero m = false)
      \/ (is_positive m = false /\ is_negative m = true /\ is_zero m = false)
      \/ (is_positive m = false /\ is_negative m = false /\ is_zero m = true)).
Proof.
  unfold is_positive, is_negative, is_zero. fold zero.
  repeat split.
  - intros H. apply gtb_Q in H. exact H.
  - intros H. apply gtb_Q. exact H.
  - intros H. apply ltb_Q in H. exact H.
  - intros H. apply ltb_Q. exact H.
  - intros H. apply eqb_Q in H. exact H.
  - intros H. apply eqb_Q. exact H.
  - unfold gtb, ltb, eqb. destruct (cmp (amount m) zero); tauto.
Qed.

End MoneySpec.

(** ** accounting/journal_entry.py *)

Module JournalSpec.
Import PyDecimal DecimalFacts SumFacts Journal.
Local Open Scope Z_scope.

(** C2 (defect in the code).  For the entry with the single line of debit
    1.00000000000000000000000000001 and credit 1, [is_balanced()] returns
    true although the exact sum of the debits differs from the exact sum of
    the credits: [sum] rounds every partial sum to 28 significant digits,
    against the method's own description, a check that debits equal
    credits. *)
Lemma rounded_entry_reported_balanced :
  is_balanced Samples.rounded_entry = Ok true
  /\ ~ exactly_balanced Samples.rounded_entry.
Proof.
  split; [vm_compute; reflexivity|].
  unfold exactly_balanced, Qeq. vm_compute. discriminate.
Qed.

(** X20.  For every [JournalEntry] whose amounts have at most [k]
    decimal places and whose debits, and whose credits, add up in absolute
    value to less than [10^28] units of [10^-k], [is_balanced()] returns,
    and returns true if and only if the exact sum of the debits equals the
    exact sum of the credits; it returns true when there are no lines. *)
Theorem is_balanced_within_precision (self : JournalEntry) (k : Z) :
  0 <= k <= 1000026 ->
  fits k (map debit (lines self)) ->
  fits k (map credit (lines self)) ->
  exists b, is_balanced self = Ok b
            /\ (b = true <-> exactly_balanced self)
            /\ (lines self = [] -> b = true).
Proof.
  intros Hk Hd Hc. unfold is_balanced, exactly_balanced.
  destruct (sum_fits k _ Hk Hd) as (td & Ed & Bd & Vd).
  destruct (sum_fits k _ Hk Hc) as (tc & Ec & Bc & Vc).
  rewrite Ed, Ec. simpl. eexists. split; [reflexivity|]. split.
  - rewrite eqb_Q.
    rewrite (to_Q_aligned (- k) td), (to_Q_aligned (- k) tc) by lia.
    rewrite Vd, Vc.
    rewrite (sum_Q_units k _ (proj1 Hd)), (sum_Q_units k _ (proj1 Hc)).
    reflexivity.
  - intros E. rewrite E in Ed, Ec. cbn in Ed, Ec.
    injection Ed as <-. injection Ec as <-. reflexivity.
Qed.

Lemma is_balanced_within_precision_witness :
  exists b, is_balanced Samples.balanced_entry = Ok b
            /\ (b = true <-> exactly_balanced Samples.balanced_entry)
            /\ (lines Samples.balanced_entry = [] -> b = true).
Proof.
  apply (is_balanced_within_precision Samples.balanced_entry 2).
  - lia.
  - split; [repeat constructor; simpl; lia | vm_compute; reflexivity].
  - split; [repeat constructor; simpl; lia | vm_compute; reflexivity].
Defined.

Example debit_100_credit_100_balanced :
  is_balanced Samples.balanced_entry = Ok true.
Proof. vm_compute. reflexivity. Qed.

Example debit_100_credit_50_unbalanced :
  is_balanced
    (Samples.entry [Samples.line Samples.hundred zero;
                    Samples.line zero (mkDecimal false 5000 (-2))])
  = Ok false.
Proof. vm_compute. reflexivity. Qed.

Example four_lines_balanced :
  is_balanced
    (Samples.entry [Samples.line Samples.hundred zero;
                    Samples.line (mkDecimal false 5000 (-2)) zero;
                    Samples.line zero (mkDecimal false 7500 (-2));
                    Samples.line zero (mkDecimal false 7500 (-2))])
  = Ok true.
Proof. vm_compute. reflexivity. Qed.

Example no_lines_balanced : is_balanced (Samples.entry []) = Ok true.
Proof. reflexivity. Qed.

End JournalSpec.

(** ** pydantic *)

Module PydanticFacts.
Import Pydantic.

Lemma optional_valid {A} (d : A) (x : option A) :
  optional d x = Valid (match x with Some a => a | None => d end).
Proof. destruct x; reflexivity. Qed.

(** The line errors of a construction are those of its fields, in order. *)
Lemma errors_ap {A B} (f : validated (A -> B)) (x : validated A) :
  errors_of (f <*> x) = (errors_of f ++ errors_of x)%list.
Proof.
  destruct f, x; simpl; try reflexivity. symmetry. apply app_nil_r.
Qed.

Lemma is_valid_ap {A B} (f : validated (A -> B)) (x : validated A) :
  is_valid (f <*> x) = is_valid f && is_valid x.
Proof. destruct f, x; reflexivity. Qed.

Lemma valid_inv {A} (v : validated A) :
  is_valid v = true -> exists a, v = Valid a.
Proof. destruct v; [eexists; reflexivity | discriminate]. Qed.

Lemma invalid_iff {A} (v : validated A) :
  (exists es, v = ValidationError es) <-> is_valid v = false.
Proof.
  destruct v; simpl; split.
  - intros [es H]. discriminate.
  - discriminate.
  - reflexivity.
  - intros _. eexists. reflexivity.
Qed.

Lemma errors_optional {A} (d : A) (x : option A) : errors_of (optional d x) = [].
Proof. destruct x; reflexivity. Qed.

Lemma is_valid_optional {A} (d : A) (x : option A) : is_valid (optional d x) = true.
Proof. destruct x; reflexivity. Qed.

Lemma errors_required {A} (name : string) (x : option A) :
  errors_of (required name x)
  = match x with Some _ => [] | None => [mkError name missing "Field required"] end.
Proof. destruct x; reflexivity. Qed.

Lemma is_valid_required {A} (name : string) (x : option A) :
  is_valid (required name x) = match x with Some _ => true | None => false end.
Proof. destruct x; reflexivity. Qed.

End PydanticFacts.

(** ** float *)

Module FloatFacts.
Import PyFloat.
Local Open Scope Z_scope.

Lemma cmp_finite na ma ea nb mb eb :
  cmp (Finite na ma ea) (Finite nb mb eb)
  = Some (to_Q na ma ea ?= to_Q nb mb eb)%Q.
Proof.
  unfold cmp, to_Q. f_equal. apply scaled_compare. lia.
Qed.

Lemma one_Q : (to_Q false 1 0 == 1)%Q.
Proof. reflexivity. Qed.

Lemma zero_Q : (to_Q false 0 0 == 0)%Q.
Proof. reflexivity. Qed.

Lemma gtb_one neg m e :
  gtb (Finite neg m e) one = true <-> (1 < to_Q neg m e)%Q.
Proof.
  unfold gtb, one. rewrite cmp_finite, <- one_Q at 1. rewrite Qgt_alt.
  destruct (_ ?= _)%Q; split; congruence.
Qed.

Lemma ltb_zero neg m e :
  ltb (Finite neg m e) zero = true <-> (to_Q neg m e < 0)%Q.
Proof.
  unfold ltb, zero. rewrite cmp_finite. rewrite <- zero_Q at 1. rewrite Qlt_alt.
  destruct (_ ?= _)%Q; split; congruence.
Qed.

(** The two comparisons of the range check pass exactly on the interval. *)
Lemma range_check v :
  is_nan v = false ->
  (gtb v one = false /\ ltb v zero = false) <-> in_interval 0 1 v.
Proof.
  destruct v as [neg m e | neg |]; intros Hn; simpl in Hn; try discriminate.
  - unfold in_interval.
    pose proof (gtb_one neg m e) as G. pose proof (ltb_zero neg m e) as L.
    split.
    + intros [Hg Hl]. split.
      * apply Qnot_lt_le. intros H. apply L in H. congruence.
      * apply Qnot_lt_le. intros H. apply G in H. congruence.
    + intros [H0 H1]. split.
      * destruct (gtb (Finite neg m e) one); [|reflexivity].
        exfalso. apply (Qle_not_lt _ _ H1). apply G. reflexivity.
      * destruct (ltb (Finite neg m e) zero); [|reflexivity].
        exfalso. apply (Qle_not_lt _ _ H0). apply L. reflexivity.
  - simpl. destruct neg; split; try tauto; intros [H1 H2]; discriminate.
Qed.

Lemma leb_gtb v b :
  is_nan v = false -> is_nan b = false -> leb v b = negb (gtb v b).
Proof.
  unfold leb, gtb.
  destruct v as [nv mv ev | nv |], b as [nb mb eb | nb |];
    intros Hv Hb; try discriminate; cbn [cmp].
  - destruct (_ ?= _)%Z; reflexivity.
  - destruct nb; reflexivity.
  - destruct nv; reflexivity.
  - destruct (Bool.eqb nv nb); [reflexivity|]. destruct nv; reflexivity.
Qed.

Lemma geb_ltb v b :
  is_nan v = false -> is_nan b = false -> geb v b = negb (ltb v b).
Proof.
  unfold geb, ltb.
  destruct v as [nv mv ev | nv |], b as [nb mb eb | nb |];
    intros Hv Hb; try discriminate; cbn [cmp].
  - destruct (_ ?= _)%Z; reflexivity.
  - destruct nb; reflexivity.
  - destruct nv; reflexivity.
  - destruct (Bool.eqb nv nb); [reflexivity|]. destruct nv; reflexivity.
Qed.

(** The two tests of the confidence field pass exactly on the interval;
    NaN and the infinities fail one of them. *)
Lemma unit_range_test v :
  (leb v (of_Z 1) = true /\ geb v (of_Z 0) = true) <-> in_interval 0 1 v.
Proof.
  change (of_Z 1) with one. change (of_Z 0) with zero.
  destruct (is_nan v) eqn:Hn.
  - destruct v; try discriminate. simpl. split; [intros [H _]; discriminate|tauto].
  - rewrite (leb_gtb v one Hn eq_refl), (geb_ltb v zero Hn eq_refl).
    rewrite !negb_true_iff. apply range_check. exact Hn.
Qed.

End FloatFacts.

(** ** tax/estimate_request.py and tax/estimate_result.py *)

Module TaxSpec.
Import Pydantic PydanticFacts Versioning.

(** C7, as stated, fails for [TaxComputeResponse]: its [as_of_month] is a
    plain [int] with default 0, and 13 is accepted. *)
Lemma response_month_unbounded :
  exists r, TaxResponse.new (TaxResponse.only_as_of_month 13) = Valid r
            /\ TaxResponse.as_of_month r = 13%Z.
Proof. eexists. split; reflexivity. Qed.

(** C7 (amended).  With a valid schema version, constructing a
    [TaxComputeRequest] with [as_of_month=m] succeeds and stores [m] when
    [1 <= m <= 12], and is rejected with an error located at [as_of_month]
    for every other integer; constructing a [TaxComputeResponse] with
    [as_of_month=m] succeeds and stores [m] for every integer [m]. *)
Theorem as_of_month_range
    (kq : TaxRequest.kwargs) (kr : TaxResponse.kwargs) (m : Z) :
  TaxRequest.as_of_month kq = Some m ->
  is_valid (schema_version_field (TaxRequest.schema_version kq)) = true ->
  TaxResponse.as_of_month kr = Some m ->
  is_valid (schema_version_field (TaxResponse.schema_version kr)) = true ->
  ((1 <= m <= 12)%Z ->
     exists r, TaxRequest.new kq = Valid r /\ TaxRequest.as_of_month r = m)
  /\ (~ (1 <= m <= 12)%Z ->
     exists e, TaxRequest.new kq = ValidationError [e] /\ loc e = "as_of_month")
  /\ (exists r, TaxResponse.new kr = Valid r /\ TaxResponse.as_of_month r = m).
Proof.
  intros Hq Hqv Hr Hrv.
  destruct (valid_inv _ Hqv) as [svq Eq]. destruct (valid_inv _ Hrv) as [svr Er].
  assert (Q : ((1 <= m <= 12)%Z ->
                 exists r, TaxRequest.new kq = Valid r /\ TaxRequest.as_of_month r = m)
              /\ (~ (1 <= m <= 12)%Z ->
                 exists e, TaxRequest.new kq = ValidationError [e]
                           /\ loc e = "as_of_month")).
  { destruct kq; simpl in *. subst.
    unfold TaxRequest.new.
    cbn [TaxRequest.schema_version TaxRequest.tenant_id
      TaxRequest.client_id TaxRequest.tax_year TaxRequest.as_of_month
      TaxRequest.filing_status TaxRequest.entity_type TaxRequest.state
      TaxRequest.gross_receipts_ytd TaxRequest.cost_of_goods_sold_ytd
      TaxRequest.total_expenses_ytd TaxRequest.officer_compensation_ytd
      TaxRequest.other_income_ytd TaxRequest.w2_income TaxRequest.spouse_w2_income
      TaxRequest.capital_gains TaxRequest.other_taxable_income
      TaxRequest.itemized_deductions TaxRequest.prior_year_overpayment
      TaxRequest.estimated_payments_ytd TaxRequest.qbi_eligible
      TaxRequest.qbi_prior_year_loss].
    rewrite Eq, !optional_valid.
    unfold TaxRequest.as_of_month_field, required_int_range.
    destruct (Z.gtb_spec m 12); [|destruct (Z.ltb_spec m 1)]; cbn [ap pure].
    - split; [lia|]. intros _. eexists. split; reflexivity.
    - split; [lia|]. intros _. eexists. split; reflexivity.
    - split; [|lia]. intros _. eexists. split; reflexivity. }
  destruct Q as [Q1 Q2]. split; [exact Q1|]. split; [exact Q2|].
  destruct kr; simpl in *. subst.
  unfold TaxResponse.new, TaxResponse.as_of_month_field.
  cbn [TaxResponse.schema_version TaxResponse.tenant_id TaxResponse.client_id
    TaxResponse.tax_year TaxResponse.as_of_month
    TaxResponse.projected_annual_revenue TaxResponse.projected_annual_expenses
    TaxResponse.projected_net_income TaxResponse.total_federal_tax
    TaxResponse.total_state_tax TaxResponse.total_self_employment_tax
    TaxResponse.total_tax_liability TaxResponse.recommended_set_aside_pct
    TaxResponse.recommended_monthly_set_aside TaxResponse.quarterly_payments
    TaxResponse.effective_tax_rate TaxResponse.marginal_tax_rate
    TaxResponse.qbi_deduction TaxResponse.engine_version].
  rewrite Er, !optional_valid. cbn [ap pure].
  eexists. split; reflexivity.
Qed.

Lemma as_of_month_range_witness :
  ((1 <= 13 <= 12)%Z ->
     exists r, TaxRequest.new (TaxRequest.only_as_of_month 13) = Valid r
               /\ TaxRequest.as_of_month r = 13%Z)
  /\ (~ (1 <= 13 <= 12)%Z ->
     exists e, TaxRequest.new (TaxRequest.only_as_of_month 13) = ValidationError [e]
               /\ loc e = "as_of_month")
  /\ (exists r, TaxResponse.new (TaxResponse.only_as_of_month 13) = Valid r
                /\ TaxResponse.as_of_month r = 13%Z).
Proof.
  apply (as_of_month_range (TaxRequest.only_as_of_month 13)
                           (TaxResponse.only_as_of_month 13) 13);
    reflexivity.
Defined.

Example request_month_0_rejected :
  is_valid (TaxRequest.new (TaxRequest.only_as_of_month 0)) = false.
Proof. reflexivity. Qed.

Example request_month_6_accepted :
  is_valid (TaxRequest.new (TaxRequest.only_as_of_month 6)) = true.
Proof. reflexivity. Qed.

Example response_month_0_accepted :
  is_valid (TaxResponse.new (TaxResponse.only_as_of_month 0)) = true.
Proof. reflexivity. Qed.

End TaxSpec.

(** ** accounting/classification.py *)

Module ClassificationSpec.
Import PyStr Pydantic PydanticFacts Versioning VersioningFacts VersioningSpec.
Import Classification.

(** C8.  With [transaction_id] supplied and a valid schema version,
    constructing a [TransactionClassificationResult] succeeds, and stores
    the confidence, when the confidence lies in the closed interval from 0
    to 1, and is rejected with an error located at [confidence] for every
    other float: a number outside the interval, an infinity, or NaN. *)
Theorem confidence_range (k : Result.kwargs) (v : PyFloat.float) (tid : string) :
  Result.confidence k = Some v ->
  Result.transaction_id k = Some tid ->
  is_valid (schema_version_field (Result.schema_version k)) = true ->
  (PyFloat.in_interval 0 1 v ->
     exists r, Result.new k = Valid r /\ Result.confidence r = v)
  /\ (~ PyFloat.in_interval 0 1 v ->
     exists e, Result.new k = ValidationError [e] /\ loc e = "confidence").
Proof.
  intros Hc Ht Hsv. destruct (valid_inv _ Hsv) as [sv Esv].
  pose proof (FloatFacts.unit_range_test v) as R.
  destruct k; simpl in *. subst.
  unfold Result.new.
  cbn [Result.schema_version Result.transaction_id Result.suggested_account_id
    Result.suggested_account_name Result.suggested_vendor_id
    Result.suggested_vendor_name Result.confidence Result.confidence_band
    Result.source Result.reasoning Result.needs_review Result.needs_clarification
    Result.clarification_question Result.risk_flags Result.alternative_suggestions].
  rewrite Esv, !optional_valid.
  unfold Result.confidence_field, PyFloat.required_float_range, required.
  destruct (PyFloat.leb v (PyFloat.of_Z 1)) eqn:G;
    [destruct (PyFloat.geb v (PyFloat.of_Z 0)) eqn:L|]; cbn [negb ap pure].
  - split; [intros _; eexists; split; reflexivity|].
    intros H. exfalso. apply H, R. auto.
  - split; [intros H; apply R in H; destruct H; discriminate|].
    intros _. eexists. split; reflexivity.
  - split; [intros H; apply R in H; destruct H; discriminate|].
    intros _. eexists. split; reflexivity.
Qed.

Lemma confidence_range_witness :
  (PyFloat.in_interval 0 1 Samples.half ->
     exists r, Result.new (Result.only "txn_1" Samples.half) = Valid r
               /\ Result.confidence r = Samples.half)
  /\ (~ PyFloat.in_interval 0 1 Samples.half ->
     exists e, Result.new (Result.only "txn_1" Samples.half) = ValidationError [e]
               /\ loc e = "confidence").
Proof.
  apply (confidence_range (Result.only "txn_1" Samples.half) Samples.half "txn_1");
    reflexivity.
Defined.

Example confidence_nan_rejected :
  map type (errors_of (Result.new (Result.only "txn_1" PyFloat.NaN)))
  = [less_than_equal].
Proof. reflexivity. Qed.

Example confidence_infinity_rejected :
  map type (errors_of (Result.new (Result.only "txn_1" (PyFloat.Inf false))))
  = [less_than_equal]
  /\ map type (errors_of (Result.new (Result.only "txn_1" (PyFloat.Inf true))))
     = [greater_than_equal].
Proof. split; reflexivity. Qed.

Example confidence_0_accepted :
  is_valid (Result.new (Result.only "txn_1" PyFloat.zero)) = true.
Proof. reflexivity. Qed.

Example confidence_1_accepted :
  is_valid (Result.new (Result.only "txn_1" PyFloat.one)) = true.
Proof. reflexivity. Qed.

Example confidence_minus_point_one_rejected :
  is_valid (Result.new (Result.only "txn_1" Samples.minus_point_one)) = false.
Proof. reflexivity. Qed.

Example confidence_one_point_one_rejected :
  is_valid (Result.new (Result.only "txn_1" Samples.one_point_one)) = false.
Proof. reflexivity. Qed.

(** C9.  A [BatchClassificationResponse] built from keyword arguments that
    supply the metadata under the alias key [_meta] exposes that metadata as
    [meta]; so does one built from keyword arguments that supply it under
    the field name [meta] and have no [_meta]. *)
Theorem meta_alias (k : Batch.kwargs) (m : ClassificationResponseMeta.t)
    (cs : list Result.TransactionClassificationResult) :
  Batch.classifications (Batch.by_name k) = Some cs ->
  is_valid (schema_version_field (Batch.schema_version (Batch.by_name k))) = true ->
  (Batch._meta k = Some m ->
     exists r, Batch.new k = Valid r /\ Batch.meta r = m)
  /\ (Batch._meta k = None -> Batch.meta (Batch.by_name k) = Some m ->
     exists r, Batch.new k = Valid r /\ Batch.meta r = m).
Proof.
  intros Hcs Hsv. destruct (valid_inv _ Hsv) as [sv Esv].
  destruct k as [[sv' cs' rules meta'] alias]; simpl in *. subst.
  unfold Batch.new, Batch.meta_field, lookup_alias.
  cbn [Batch.by_name Batch._meta Batch.schema_version Batch.classifications
       Batch.suggested_rules Batch.meta Batch.model_config populate_by_name].
  rewrite Esv, !optional_valid. cbn [ap pure required].
  split.
  - intros ->. eexists. split; reflexivity.
  - intros -> ->. eexists. split; reflexivity.
Qed.

Lemma meta_alias_witness :
  (Batch._meta (Batch.with_alias [] Samples.meta_req_456) = Some Samples.meta_req_456 ->
     exists r, Batch.new (Batch.with_alias [] Samples.meta_req_456) = Valid r
               /\ Batch.meta r = Samples.meta_req_456)
  /\ (Batch._meta (Batch.with_alias [] Samples.meta_req_456) = None ->
      Batch.meta (Batch.by_name (Batch.with_alias [] Samples.meta_req_456))
      = Some Samples.meta_req_456 ->
     exists r, Batch.new (Batch.with_alias [] Samples.meta_req_456) = Valid r
               /\ Batch.meta r = Samples.meta_req_456).
Proof.
  apply (meta_alias (Batch.with_alias [] Samples.meta_req_456)
                    Samples.meta_req_456 []);
    reflexivity.
Defined.

Example meta_by_alias :
  Batch.new (Batch.with_alias [] Samples.meta_req_456)
  = Valid (@Batch.mk Id "1.0" [] [] Samples.meta_req_456).
Proof. reflexivity. Qed.

Example meta_by_name :
  Batch.new (Batch.with_name [] Samples.meta_req_456)
  = Valid (@Batch.mk Id "1.0" [] [] Samples.meta_req_456).
Proof. reflexivity. Qed.

End ClassificationSpec.

(** ** Aggregated validation errors *)

Module AggregationSpec.
Import PyStr Pydantic PydanticFacts Versioning VersioningSpec.
Import Classification.

Lemma request_errors (k : Request.kwargs) :
  errors_of (Request.new k)
  = (errors_of (schema_version_field (Request.schema_version k))
     ++ errors_of (required "tenant_id" (Request.tenant_id k))
     ++ errors_of (required "client_id" (Request.client_id k))
     ++ errors_of (required "transactions" (Request.transactions k)))%list.
Proof.
  unfold Request.new. rewrite !errors_ap, !errors_optional, !app_nil_r.
  cbn [pure errors_of app]. rewrite <- !app_assoc. reflexivity.
Qed.

Lemma request_is_valid (k : Request.kwargs) :
  is_valid (Request.new k)
  = is_valid (schema_version_field (Request.schema_version k))
    && is_valid (required "tenant_id" (Request.tenant_id k))
    && is_valid (required "client_id" (Request.client_id k))
    && is_valid (required "transactions" (Request.transactions k)).
Proof.
  unfold Request.new. rewrite !is_valid_ap, !is_valid_optional, !andb_true_r.
  reflexivity.
Qed.

Ltac pick_error :=
  first [ eexists; split; [left; reflexivity | reflexivity]
        | eexists; split; [right; left; reflexivity | reflexivity]
        | eexists; split; [right; right; left; reflexivity | reflexivity]
        | eexists; split; [right; right; right; left; reflexivity | reflexivity] ].

(** C10.  Constructing a [TransactionClassificationRequest] raises one
    validation error exactly when some field violates its constraint, and
    that error then has a line error for every violated field, for no other
    field, and one per field. *)
Theorem all_violations_reported (k : Request.kwargs) :
  (forall field,
      Request.violated k field
      <-> exists e, In e (errors_of (Request.new k)) /\ loc e = field)
  /\ ((exists field, Request.violated k field)
      <-> exists es, Request.new k = ValidationError es)
  /\ NoDup (map loc (errors_of (Request.new k))).
Proof.
  rewrite invalid_iff, request_is_valid, request_errors.
  rewrite !errors_required, !is_valid_required.
  unfold Request.violated.
  destruct (schema_version_field_cases (Request.schema_version k))
    as [(v & E & Hv) | (sv & m & Es & Hs & E)]; rewrite E; clear E;
    cbn [errors_of is_valid andb app].
  - assert (Hsv : forall s, Request.schema_version k = Some s ->
                            ~ returns (validate_version s) -> False)
      by (intros s Es Hs; apply Hs, Hv, Es).
    destruct (Request.tenant_id k) as [tv|], (Request.client_id k) as [cv|],
      (Request.transactions k) as [trv|]; cbn [app map loc andb].
    all: split; [intros field; split|split; [split|]].
    all: try (intros [(_ & sx & Esx & Hsx) | [[-> H] | [[-> H] | [-> H]]]];
              try discriminate; try (exfalso; exact (Hsv sx Esx Hsx));
              pick_error).
    all: try (intros (e & Hin & <-); simpl in Hin;
              repeat (destruct Hin as [<- | Hin]; [simpl; tauto|]);
              contradiction).
    all: try (intros (field & [(_ & sx & Esx & Hsx) | [[-> H] | [[-> H] | [-> H]]]]);
              try discriminate; try (exfalso; exact (Hsv sx Esx Hsx)); reflexivity).
    all: try (intros H; try discriminate;
              first [ exists "tenant_id"; tauto
                    | exists "client_id"; tauto
                    | exists "transactions"; tauto ]).
    all: simpl; repeat constructor; simpl; intuition discriminate.
  - assert (Hv : "schema_version" = "schema_version"
                 /\ exists s, Request.schema_version k = Some s
                              /\ ~ returns (validate_version s))
      by (split; [reflexivity | exists sv; auto]).
    destruct (Request.tenant_id k) as [tv|], (Request.client_id k) as [cv|],
      (Request.transactions k) as [trv|]; cbn [app map loc andb].
    all: split; [intros field; split|split; [split|]].
    all: try (intros [(-> & _) | [[-> H] | [[-> H] | [-> H]]]];
              try discriminate; pick_error).
    all: try (intros (e & Hin & <-); simpl in Hin;
              repeat (destruct Hin as [<- | Hin]; [simpl; tauto|]);
              contradiction).
    all: try (intros _; reflexivity).
    all: try (intros _; exists "schema_version"; left; exact Hv).
    all: simpl; repeat constructor; simpl; intuition discriminate.
Qed.

(** A request with a malformed version and all three required fields
    missing: four line errors in one exception. *)
Example four_violations_one_error :
  map loc (errors_of (Request.new
    (@Request.mk option (Some "v1.0") None None None None None None None)))
  = ["schema_version"; "tenant_id"; "client_id"; "transactions"].
Proof. reflexivity. Qed.

End AggregationSpec.

(** ** Assignment to a field of an instance *)

Module AssignmentSpec.
Import Pydantic Versioning.

(** C6 (defect in the code).  Immutability is not enforced.  A
    [VersionedSchema] constructed with version "1.0" takes the assignment
    [schema_version = "abc"], a value its validator refuses at construction;
    and an [AuditEvent], which the class describes as an immutable audit
    trail entry, takes the assignment [action = "deleted"] after it has been
    constructed. *)
Theorem immutability_not_enforced :
  (exists r r',
      Versioning.new (Some "1.0") = Valid r
      /\ setattr_schema_version Versioning.model_config r "abc" = Ok r'
      /\ schema_version r' = "abc"
      /\ schema_version r' <> schema_version r
      /\ is_valid (Versioning.new (Some "abc")) = false)
  /\ (exists e e',
        Audit.new tt 0%Z (Audit.no_arguments unit Z) = Valid e
        /\ Audit.set_action e "deleted" = Ok e'
        /\ Audit.action e' = "deleted"
        /\ Audit.action e' <> Audit.action e).
Proof.
  split.
  - exists (mkVersionedSchema "1.0"), (mkVersionedSchema "abc").
    repeat split. discriminate.
  - eexists. eexists. repeat split. discriminate.
Qed.

End AssignmentSpec.

(* ===================================================================== *)
(** * Further properties *)

(** ** versioning.py, continued *)

Module VersioningMore.
Import PyStr PyStrOps Pydantic Versioning VersioningFacts VersioningSpec.

Lemma before_first_dot_app a r :
  free_of "." a = true -> before_first_dot (a ++ String "." r) = a.
Proof.
  unfold free_of. induction a as [|c a IH]; simpl; intros H; [reflexivity|].
  apply andb_prop in H. destruct H as [Hc Ha].
  apply negb_true_iff in Hc. rewrite Hc, (IH Ha). reflexivity.
Qed.

(** X1.  Every [VersionedSchema] that construction returns, from a supplied
    version or from the default, carries a version its validator accepts. *)
Theorem constructed_version_is_valid (input : option string) (r : VersionedSchema) :
  Versioning.new input = Valid r ->
  validate_version (schema_version r) = Ok (schema_version r)
  /\ major_minor isdigit_char (schema_version r)
  /\ (forall s, input = Some s -> schema_version r = s)
  /\ (input = None -> schema_version r = "1.0").
Proof.
  intros H. rewrite new_eq in H.
  destruct input as [s|].
  - destruct (field_supplied s) as [[MM E] | [MM [m E]]]; rewrite E in H;
      [|discriminate].
    injection H as <-. simpl.
    split; [apply validate_version_ok; exact MM|].
    split; [exact MM|]. split; [|discriminate].
    intros s' Es. injection Es as <-. reflexivity.
  - injection H as <-. simpl.
    split; [reflexivity|]. split; [apply validate_version_ok; reflexivity|].
    split; [discriminate | reflexivity].
Qed.

Lemma constructed_version_is_valid_witness :
  validate_version (schema_version (mkVersionedSchema "1.0"))
  = Ok (schema_version (mkVersionedSchema "1.0"))
  /\ major_minor isdigit_char (schema_version (mkVersionedSchema "1.0"))
  /\ (forall s, None = Some s -> schema_version (mkVersionedSchema "1.0") = s)
  /\ (@None string = None -> schema_version (mkVersionedSchema "1.0") = "1.0").
Proof.
  apply (constructed_version_is_valid None (mkVersionedSchema "1.0")).
  reflexivity.
Defined.

(** X2.  Compatibility is an equivalence on the versions of instances:
    every instance is compatible with its own version, the answer does not
    depend on which of two instances is asked, and compatibility carries
    over a common neighbour. *)
Theorem is_compatible_equivalence (a b c : VersionedSchema) :
  is_compatible a (schema_version a) = Ok true
  /\ is_compatible a (schema_version b) = is_compatible b (schema_version a)
  /\ (is_compatible a (schema_version b) = Ok true ->
      is_compatible b (schema_version c) = Ok true ->
      is_compatible a (schema_version c) = Ok true).
Proof.
  rewrite !is_compatible_eq. split; [|split].
  - rewrite String.eqb_refl. reflexivity.
  - rewrite String.eqb_sym. reflexivity.
  - intros H1 H2. injection H1 as H1. injection H2 as H2.
    apply String.eqb_eq in H1, H2. rewrite H1, H2, String.eqb_refl. reflexivity.
Qed.

(** X3.  Only the text before the first dot counts: for dot-free majors,
    [major.rest] against [major'.rest'] is compatible exactly when the two
    majors are the same string, whatever follows the dots. *)
Theorem is_compatible_ignores_minor (major major' rest rest' : string) :
  free_of "." major = true -> free_of "." major' = true ->
  is_compatible (mkVersionedSchema (major ++ String "." rest))
                (major' ++ String "." rest')
  = Ok (String.eqb major major').
Proof.
  intros H H'. rewrite is_compatible_eq. simpl.
  rewrite !before_first_dot_app by assumption. reflexivity.
Qed.

Lemma is_compatible_ignores_minor_witness :
  is_compatible (mkVersionedSchema ("1" ++ String "." "0")) ("1" ++ String "." "99.5")
  = Ok (String.eqb "1" "1").
Proof.
  apply (is_compatible_ignores_minor "1" "1" "0" "99.5"); reflexivity.
Defined.

Lemma join_cons sep x y l :
  join sep (x :: y :: l) = x ++ String sep (join sep (y :: l)).
Proof. reflexivity. Qed.

(** X4.  [split] loses nothing: joining the segments of [s] with the
    separator gives [s] back, there is one segment more than [s] has
    separators, and no segment contains the separator. *)
Theorem split_join_round_trip (sep : ascii) (s : string) :
  join sep (split sep s) = s
  /\ List.length (split sep s) = S (count sep s)
  /\ Forall (fun p => free_of sep p = true) (split sep s).
Proof.
  unfold free_of.
  induction s as [|c r (IH1 & IH2 & IH3)]; simpl.
  - repeat split. repeat constructor.
  - destruct (Ascii.eqb_spec c sep) as [->|Hne].
    + destruct (split sep r) as [|p ps] eqn:E; [discriminate IH2|].
      rewrite join_cons, IH1. simpl. split; [reflexivity|].
      split; [f_equal; exact IH2|]. constructor; [reflexivity|exact IH3].
    + destruct (split sep r) as [|p ps] eqn:E; [discriminate IH2|].
      split; [|split].
      * destruct ps as [|q ps]; [simpl in *; congruence|].
        rewrite join_cons in *. cbn [append]. f_equal. exact IH1.
      * exact IH2.
      * inversion IH3; subst. constructor; [|assumption].
        simpl. destruct (Ascii.eqb_spec c sep); [contradiction|]. simpl. assumption.
Qed.

End VersioningMore.

(** ** common/money.py, continued *)

Module MoneyMore.
Import Pydantic PydanticFacts PyDecimal DecimalFacts Money.
Local Open Scope Z_scope.

Lemma compare_mul_pos n m p : 0 < p -> (n * p ?= m * p) = (n ?= m).
Proof.
  intros Hp. destruct (Z.compare_spec n m) as [E|L|G].
  - subst. apply Z.compare_refl.
  - apply Z.compare_lt_iff. nia.
  - apply Z.compare_gt_iff. nia.
Qed.

Lemma cmp_zero a : cmp a zero = (signed a ?= 0).
Proof.
  unfold cmp, aligned. change (signed zero) with 0. rewrite Z.mul_0_l.
  set (p := 10 ^ _).
  assert (Hp : 0 < p) by (apply Z.pow_pos_nonneg; simpl; lia).
  transitivity (signed a * p ?= 0 * p);
    [rewrite Z.mul_0_l; reflexivity | apply compare_mul_pos; exact Hp].
Qed.

(** X5.  The sign predicates read the sign and the coefficient only: a
    zero coefficient is zero whatever its sign and exponent (so
    [Decimal("-0.00")] is zero and not negative), and a non-zero one is
    positive or negative by its sign. *)
Theorem money_sign_by_representation (m : Money) :
  (is_zero m = true <-> coefficient (amount m) = 0%N)
  /\ (is_positive m = true
      <-> sign (amount m) = false /\ coefficient (amount m) <> 0%N)
  /\ (is_negative m = true
      <-> sign (amount m) = true /\ coefficient (amount m) <> 0%N).
Proof.
  unfold is_zero, is_positive, is_negative. fold zero.
  unfold eqb, gtb, ltb. rewrite cmp_zero. unfold signed.
  set (c := coefficient (amount m)).
  destruct (N.eq_dec c 0) as [E|NE].
  - rewrite E. destruct (sign (amount m)); simpl;
      repeat split; intros; try discriminate; try reflexivity;
      try (destruct H; congruence).
  - destruct (sign (amount m)).
    + assert (L : (- Z.of_N c ?= 0) = Lt) by (apply Z.compare_lt_iff; lia).
      rewrite L. repeat split; intros; try discriminate; try reflexivity;
        try assumption; try (destruct H; congruence); congruence.
    + assert (G : (Z.of_N c ?= 0) = Gt) by (apply Z.compare_gt_iff; lia).
      rewrite G. repeat split; intros; try discriminate; try reflexivity;
        try assumption; try (destruct H; congruence); congruence.
Qed.

(** X6.  A [Money] is constructed exactly when a finite amount is supplied
    and the currency, if supplied, has at most three characters; the values
    are stored unchanged and the currency defaults to USD.  An amount that
    is an infinity or NaN is rejected as not finite.  Nothing asks for
    exactly three letters: the empty currency is accepted.  A missing amount
    and an over-long currency are reported together. *)
Theorem money_new_iff (a : option value) (c : option string) :
  (is_valid (Money.new a c) = true
     <-> (exists d, a = Some (Fin d))
         /\ (forall s, c = Some s -> (String.length s <= 3)%nat))
  /\ (forall d, a = Some (Fin d) -> c = None ->
        Money.new a c = Valid (mkMoney d "USD"))
  /\ (forall d s, a = Some (Fin d) -> c = Some s -> (String.length s <= 3)%nat ->
        Money.new a c = Valid (mkMoney d s))
  /\ (forall v, a = Some v -> (forall d, v <> Fin d) ->
        exists e, In e (errors_of (Money.new a c))
                  /\ loc e = "amount"%string /\ type e = finite_number)
  /\ (forall s, a = None -> c = Some s -> (3 < String.length s)%nat ->
        map loc (errors_of (Money.new a c)) = ["amount"; "currency"]%string).
Proof.
  unfold Money.new, currency_field, required_decimal, finite.
  split; [|split; [|split; [|split]]].
  - destruct a as [[d|n|]|], c as [s|]; cbn [ap pure];
      try destruct (Nat.ltb_spec 3 (String.length s)) as [L|L];
      cbn [ap pure is_valid]; split; try discriminate.
    all: try (intros _; reflexivity).
    all: try (intros [[d' E] H]; discriminate E).
    all: try (intros [[d' E] H]; specialize (H s eq_refl); lia).
    all: intros _; split; [exists d; reflexivity|].
    all: intros s' E; try discriminate E; injection E as <-; lia.
  - intros d -> ->. reflexivity.
  - intros d s -> -> Hs. cbn [ap pure].
    destruct (Nat.ltb_spec 3 (String.length s)) as [L|L]; [lia|reflexivity].
  - intros v -> Hv.
    destruct v as [d|n|]; [exfalso; exact (Hv d eq_refl)| |];
      destruct c as [s|]; cbn [ap pure];
      try destruct (Nat.ltb_spec 3 (String.length s)) as [L|L];
      cbn [ap pure errors_of app];
      (eexists; split; [left; reflexivity|split; reflexivity]).
  - intros s -> -> Hs.
    destruct (Nat.ltb_spec 3 (String.length s)) as [L|L]; [reflexivity|lia].
Qed.

Example money_nan_rejected :
  map type (errors_of (Money.new (Some NaN) None)) = [finite_number].
Proof. reflexivity. Qed.

End MoneyMore.

(** ** accounting/journal_entry.py, continued *)

Module JournalMore.
Import Pydantic PydanticFacts PyDecimal DecimalFacts SumFacts Journal JournalOps.
Import MoneyMore.
Local Open Scope Z_scope.

(** *** What [sum] can raise *)

Lemma fix_raises d e : fix_ d = Raise e -> e = DecimalOverflow.
Proof.
  unfold fix_. destruct (coefficient d =? 0)%N; [discriminate|].
  cbv zeta.
  destruct (_ >? Etop); [intros H; injection H as <-; reflexivity|].
  destruct (exponent d <? _); [|discriminate].
  destruct (_ <? 0); cbv beta iota zeta;
    (destruct (ndigits _ >? prec); cbv beta iota zeta;
     (destruct (_ >? Etop); [intros H; injection H as <-; reflexivity|discriminate])).
Qed.

Lemma fold_raised xs e :
  fold_left (fun acc x => a <- acc ;; add a x) xs (Raise e) = Raise e.
Proof. induction xs as [|x xs IH]; simpl; [reflexivity | exact IH]. Qed.

Lemma fold_raises xs : forall acc e,
  fold_left (fun acc x => a <- acc ;; add a x) xs (Ok acc) = Raise e ->
  e = DecimalOverflow.
Proof.
  induction xs as [|x xs IH]; intros acc e; cbn [fold_left bind]; [discriminate|].
  destruct (add acc x) as [r|e'] eqn:E.
  - apply IH.
  - rewrite fold_raised. intros H. injection H as <-.
    apply (fix_raises _ _ E).
Qed.

Lemma sum_raises xs e : sum xs = Raise e -> e = DecimalOverflow.
Proof. apply fold_raises. Qed.

Lemma eqb_sym a b : eqb a b = eqb b a.
Proof.
  unfold eqb, cmp. rewrite (Z.min_comm (exponent b)).
  rewrite (Z.compare_antisym (aligned _ a) (aligned _ b)).
  destruct (aligned _ a ?= aligned _ b); reflexivity.
Qed.

Lemma swapped_debits ls : map debit (map swap_line ls) = map credit ls.
Proof. rewrite map_map. reflexivity. Qed.

Lemma swapped_credits ls : map credit (map swap_line ls) = map debit ls.
Proof. rewrite map_map. reflexivity. Qed.

(** X7.  Exchanging debit and credit on every line never changes what
    [is_balanced()] does: the reversing entry gets the same answer, and
    raises when the entry does. *)
Theorem is_balanced_reversed (e : JournalEntry) :
  is_balanced (reversed e) = is_balanced e.
Proof.
  unfold is_balanced, reversed, with_lines. cbn [lines].
  rewrite swapped_debits, swapped_credits.
  destruct (sum (map debit (lines e))) as [td|x] eqn:Ed;
    destruct (sum (map credit (lines e))) as [tc|y] eqn:Ec; cbn [bind].
  - rewrite eqb_sym. reflexivity.
  - reflexivity.
  - reflexivity.
  - rewrite (sum_raises _ _ Ed), (sum_raises _ _ Ec). reflexivity.
Qed.

(** *** Within the precision *)

Lemma cmp_units k a b :
  - k <= exponent a -> - k <= exponent b ->
  cmp a b = (aligned (- k) a ?= aligned (- k) b).
Proof.
  intros Ha Hb. unfold cmp.
  set (e := Z.min (exponent a) (exponent b)).
  rewrite <- (aligned_aligned e (- k) a), <- (aligned_aligned e (- k) b)
    by (subst e; lia).
  symmetry. apply compare_mul_pos. apply Z.pow_pos_nonneg; subst e; lia.
Qed.

Lemma is_balanced_units k (e : JournalEntry) :
  0 <= k <= 1000026 ->
  fits k (map debit (lines e)) -> fits k (map credit (lines e)) ->
  is_balanced e
  = Ok (total_units k (map debit (lines e)) =? total_units k (map credit (lines e))).
Proof.
  intros Hk Hd Hc. unfold is_balanced.
  destruct (sum_fits k _ Hk Hd) as (td & Ed & Bd & Vd).
  destruct (sum_fits k _ Hk Hc) as (tc & Ec & Bc & Vc).
  rewrite Ed, Ec. cbn [bind]. f_equal.
  unfold eqb. rewrite (cmp_units k) by lia. rewrite Vd, Vc.
  destruct (Z.eqb_spec (total_units k (map debit (lines e)))
                       (total_units k (map credit (lines e)))) as [E|NE].
  - rewrite E, Z.compare_refl. reflexivity.
  - destruct (Z.compare_spec (total_units k (map debit (lines e)))
                             (total_units k (map credit (lines e))));
      [contradiction|reflexivity|reflexivity].
Qed.

Lemma total_units_perm k xs ys :
  Permutation xs ys -> total_units k xs = total_units k ys.
Proof.
  induction 1; cbn [total_units fold_right] in *; unfold total_units in *; lia.
Qed.

Lemma abs_units_perm k xs ys :
  Permutation xs ys -> abs_units k xs = abs_units k ys.
Proof.
  induction 1; cbn [abs_units fold_right] in *; unfold abs_units in *; lia.
Qed.

Lemma fits_perm k xs ys : Permutation xs ys -> fits k xs -> fits k ys.
Proof.
  intros P [F B]. split.
  - apply (Permutation_Forall P F).
  - rewrite <- (abs_units_perm k _ _ P). exact B.
Qed.

(** X8.  Within the precision the order of the lines does not matter: an
    entry with the same lines in another order gets the same answer. *)
Theorem is_balanced_permutation (k : Z) (e e' : JournalEntry) :
  0 <= k <= 1000026 ->
  fits k (map debit (lines e)) -> fits k (map credit (lines e)) ->
  Permutation (lines e) (lines e') ->
  is_balanced e' = is_balanced e.
Proof.
  intros Hk Hd Hc P.
  pose proof (Permutation_map debit P) as Pd.
  pose proof (Permutation_map credit P) as Pc.
  rewrite (is_balanced_units k e Hk Hd Hc).
  rewrite (is_balanced_units k e' Hk (fits_perm k _ _ Pd Hd) (fits_perm k _ _ Pc Hc)).
  rewrite (total_units_perm k _ _ Pd), (total_units_perm k _ _ Pc). reflexivity.
Qed.

Lemma total_units_app k xs ys :
  total_units k (xs ++ ys) = total_units k xs + total_units k ys.
Proof.
  induction xs as [|x xs IH]; [reflexivity|].
  change (total_units k ((x :: xs) ++ ys))
    with (aligned (- k) x + total_units k (xs ++ ys)).
  change (total_units k (x :: xs)) with (aligned (- k) x + total_units k xs).
  lia.
Qed.

Lemma abs_units_app k xs ys :
  abs_units k (xs ++ ys) = abs_units k xs + abs_units k ys.
Proof.
  induction xs as [|x xs IH]; [reflexivity|].
  change (abs_units k ((x :: xs) ++ ys))
    with (Z.abs (aligned (- k) x) + abs_units k (xs ++ ys)).
  change (abs_units k (x :: xs)) with (Z.abs (aligned (- k) x) + abs_units k xs).
  lia.
Qed.

Lemma fits_app k xs ys : fits k (xs ++ ys) -> fits k xs /\ fits k ys.
Proof.
  intros [F B]. apply Forall_app in F. destruct F as [Fx Fy].
  rewrite abs_units_app in B.
  pose proof (abs_units_nonneg k xs). pose proof (abs_units_nonneg k ys).
  split; split; try assumption; lia.
Qed.

Lemma is_balanced_permutation_witness :
  is_balanced (Samples.entry [Samples.line zero Samples.hundred;
                              Samples.line Samples.hundred zero])
  = is_balanced Samples.balanced_entry.
Proof.
  apply (is_balanced_permutation 2 Samples.balanced_entry
           (Samples.entry [Samples.line zero Samples.hundred;
                           Samples.line Samples.hundred zero])).
  - lia.
  - split; [repeat constructor; simpl; lia | vm_compute; reflexivity].
  - split; [repeat constructor; simpl; lia | vm_compute; reflexivity].
  - apply perm_swap.
Defined.

(** X9.  Within the precision, putting the lines of two balanced entries
    into one entry gives a balanced entry; and when the combined entry and
    its first part are balanced, so is the rest. *)
Theorem is_balanced_concatenation (k : Z) (e1 e2 e : JournalEntry) :
  0 <= k <= 1000026 ->
  lines e = (lines e1 ++ lines e2)%list ->
  fits k (map debit (lines e)) -> fits k (map credit (lines e)) ->
  (is_balanced e1 = Ok true -> is_balanced e2 = Ok true -> is_balanced e = Ok true)
  /\ (is_balanced e = Ok true -> is_balanced e1 = Ok true -> is_balanced e2 = Ok true).
Proof.
  intros Hk El Hd Hc.
  rewrite (is_balanced_units k e Hk Hd Hc).
  rewrite El, !map_app in Hd, Hc.
  destruct (fits_app _ _ _ Hd) as [Hd1 Hd2].
  destruct (fits_app _ _ _ Hc) as [Hc1 Hc2].
  rewrite (is_balanced_units k e1 Hk Hd1 Hc1), (is_balanced_units k e2 Hk Hd2 Hc2).
  rewrite El, !map_app, !total_units_app.
  split; intros H1 H2; injection H1 as H1; injection H2 as H2; f_equal;
    apply Z.eqb_eq in H1, H2; apply Z.eqb_eq; lia.
Qed.

Lemma is_balanced_concatenation_witness :
  (is_balanced Samples.balanced_entry = Ok true ->
   is_balanced Samples.balanced_entry = Ok true ->
   is_balanced (Samples.entry (lines Samples.balanced_entry
                               ++ lines Samples.balanced_entry)) = Ok true)
  /\ (is_balanced (Samples.entry (lines Samples.balanced_entry
                                  ++ lines Samples.balanced_entry)) = Ok true ->
      is_balanced Samples.balanced_entry = Ok true ->
      is_balanced Samples.balanced_entry = Ok true).
Proof.
  apply (is_balanced_concatenation 2 Samples.balanced_entry Samples.balanced_entry
           (Samples.entry (lines Samples.balanced_entry
                           ++ lines Samples.balanced_entry))).
  - lia.
  - reflexivity.
  - split; [repeat constructor; simpl; lia | vm_compute; reflexivity].
  - split; [repeat constructor; simpl; lia | vm_compute; reflexivity].
Defined.

(** X10.  Within the precision [sum] returns the exact total: no rounding
    takes place. *)
Theorem sum_exact_within_precision (k : Z) (xs : list Decimal) :
  0 <= k <= 1000026 -> fits k xs ->
  exists t, sum xs = Ok t /\ (to_Q t == sum_Q xs)%Q.
Proof.
  intros Hk Hf. destruct (sum_fits k xs Hk Hf) as (t & Et & Bt & Vt).
  exists t. split; [exact Et|].
  rewrite (to_Q_aligned (- k) t) by lia. rewrite Vt.
  symmetry. apply sum_Q_units. exact (proj1 Hf).
Qed.

Lemma sum_exact_within_precision_witness :
  exists t, sum [Samples.hundred; Samples.hundred] = Ok t
            /\ (to_Q t == sum_Q [Samples.hundred; Samples.hundred])%Q.
Proof.
  apply (sum_exact_within_precision 2 [Samples.hundred; Samples.hundred]).
  - lia.
  - split; [repeat constructor; simpl; lia | vm_compute; reflexivity].
Defined.

End JournalMore.

Module DigitsMore.
Import PyDecimal DecimalFacts.
Local Open Scope Z_scope.

Lemma ndigits_zero : ndigits 0 = 1.
Proof. reflexivity. Qed.

Lemma prec_28 : 10 ^ prec = 10000000000000000000000000000.
Proof. reflexivity. Qed.

(** What rounding keeps has at most [prec] digits, before the carry. *)
Lemma kept_bound (c : N) (e exp_min : Z) :
  ndigits c + e - prec <= exp_min -> e < exp_min ->
  Z.of_N (c / Z.to_N (10 ^ (exp_min - e))) < 10 ^ prec.
Proof.
  intros H1 H2.
  assert (Hu : 0 < 10 ^ (exp_min - e)) by (apply Z.pow_pos_nonneg; lia).
  rewrite N2Z.inj_div, Z2N.id by lia.
  apply Z.div_lt_upper_bound; [exact Hu|].
  destruct (ndigits_bounds c) as [_ Hc].
  eapply Z.lt_le_trans; [exact Hc|].
  rewrite <- Z.pow_add_r by (unfold prec; lia).
  apply Z.pow_le_mono_r; lia.
Qed.

Lemma fix_digits d r : fix_ d = Ok r -> ndigits (coefficient r) <= prec.
Proof.
  unfold fix_.
  destruct (N.eqb_spec (coefficient d) 0) as [E|NE].
  - intros H. injection H as <-. simpl. rewrite ndigits_zero. unfold prec. lia.
  - cbv zeta.
    destruct (_ >? Etop); [discriminate|].
    set (exp_min := Z.max (ndigits (coefficient d) + exponent d - prec) Etiny).
    destruct (Z.ltb_spec (exponent d) exp_min) as [L|G].
    + set (digits := ndigits (coefficient d) + exponent d - exp_min).
      assert (Hk : exists c e, (if digits <? 0 then (1%N, exp_min - 1)
                                else (coefficient d, exponent d)) = (c, e)
                               /\ Z.of_N (c / Z.to_N (10 ^ (exp_min - e))) < 10 ^ prec).
      { destruct (Z.ltb_spec digits 0).
        - exists 1%N, (exp_min - 1). split; [reflexivity|].
          replace (exp_min - (exp_min - 1)) with 1 by lia. reflexivity.
        - exists (coefficient d), (exponent d). split; [reflexivity|].
          apply kept_bound; subst exp_min; lia. }
      destruct Hk as (c & e & -> & Hkept).
      cbv beta iota zeta.
      set (unit := Z.to_N (10 ^ (exp_min - e))) in *.
      match goal with
      | |- context [if ?b then (?q + 1)%N else ?q] =>
          set (coeff := if b then (q + 1)%N else q);
          assert (Hcoeff : Z.of_N coeff <= 10 ^ prec)
            by (subst coeff; destruct b; lia)
      end.
      destruct (Z.gtb_spec (ndigits coeff) prec) as [Hg|Hg]; cbv beta iota zeta.
      * destruct (_ >? Etop); [discriminate|].
        intros H. injection H as <-. cbn [coefficient].
        apply ndigits_le; [unfold prec; lia|].
        rewrite N2Z.inj_div. change (Z.of_N 10) with 10.
        rewrite prec_28 in *. apply Z.div_lt_upper_bound; lia.
      * destruct (_ >? Etop); [discriminate|].
        intros H. injection H as <-. exact Hg.
    + intros H. injection H as <-. subst exp_min. lia.
Qed.

Lemma fold_digits xs : forall acc t,
  ndigits (coefficient acc) <= prec ->
  fold_left (fun acc x => a <- acc ;; add a x) xs (Ok acc) = Ok t ->
  ndigits (coefficient t) <= prec.
Proof.
  induction xs as [|x xs IH]; intros acc t Ha; cbn [fold_left bind].
  - intros H. injection H as <-. exact Ha.
  - destruct (add acc x) as [r|e] eqn:E.
    + apply IH. exact (fix_digits _ _ E).
    + rewrite JournalMore.fold_raised. discriminate.
Qed.

(** X11.  A total that [sum] returns never has more than 28 significant
    digits, however many digits the amounts have. *)
Theorem sum_at_most_28_digits (xs : list Decimal) (t : Decimal) :
  sum xs = Ok t ->
  ndigits (coefficient t) <= 28
  /\ Z.of_N (coefficient t) < 10 ^ 28.
Proof.
  intros H. assert (D : ndigits (coefficient t) <= prec).
  { apply (fold_digits xs zero t); [|exact H].
    change (ndigits (coefficient zero)) with 1. unfold prec. lia. }
  split; [exact D|].
  destruct (ndigits_bounds (coefficient t)) as [_ Hc].
  eapply Z.lt_le_trans; [exact Hc|]. apply Z.pow_le_mono_r; [lia|exact D].
Qed.

Lemma sum_at_most_28_digits_witness :
  ndigits (coefficient (mkDecimal false 1000000000000000000000000000 (-27))) <= 28
  /\ Z.of_N (coefficient (mkDecimal false 1000000000000000000000000000 (-27)))
     < 10 ^ 28.
Proof.
  apply (sum_at_most_28_digits [Samples.one_and_a_bit]
           (mkDecimal false 1000000000000000000000000000 (-27))).
  vm_compute. reflexivity.
Defined.

End DigitsMore.

(** ** Which fields a construction needs *)

Module ConstructionMore.
Import PyStr Pydantic PydanticFacts Versioning VersioningSpec.
Import Classification ClassificationOps.

(** X12.  A [JournalEntry] is constructed exactly when [entry_date] is
    supplied and the schema version is acceptable; the lines are stored as
    they are given, balanced or not. *)
Theorem journal_entry_new_iff
    (sv eid : option string) (d : option date) (memo : option string)
    (ls : option (list Journal.JournalEntryLine))
    (src ref : option string) (adj : option bool) :
  (is_valid (Journal.new sv eid d memo ls src ref adj) = true
     <-> is_valid (schema_version_field sv) = true /\ d <> None)
  /\ (forall r l, Journal.new sv eid d memo ls src ref adj = Valid r ->
                  ls = Some l -> Journal.lines r = l)
  /\ (forall r, Journal.new sv eid d memo ls src ref adj = Valid r ->
                ls = None -> Journal.lines r = []).
Proof.
  unfold Journal.new. rewrite !optional_valid.
  destruct (schema_version_field sv) as [v|es]; destruct d as [dt|];
    cbn [ap pure required is_valid].
  - split; [split; [intros _; split; [reflexivity|discriminate]|reflexivity]|].
    split; intros r; [intros l|]; intros H E; injection H as <-; rewrite E; reflexivity.
  - split; [split; [discriminate|intros [_ H]; contradiction]|].
    split; intros r; [intros l|]; discriminate.
  - split; [split; [discriminate|intros [H _]; discriminate]|].
    split; intros r; [intros l|]; discriminate.
  - split; [split; [discriminate|intros [H _]; discriminate]|].
    split; intros r; [intros l|]; discriminate.
Qed.

End ConstructionMore.

Module ClassificationMore.
Import PyStr Pydantic PydanticFacts Versioning VersioningSpec.
Import Classification ClassificationOps.

Lemma result_errors (k : Result.kwargs) :
  errors_of (Result.new k)
  = (errors_of (schema_version_field (Result.schema_version k))
     ++ errors_of (required "transaction_id" (Result.transaction_id k))
     ++ errors_of (Result.confidence_field (Result.confidence k)))%list.
Proof.
  unfold Result.new. rewrite !errors_ap, !errors_optional, !app_nil_r.
  cbn [pure errors_of app]. rewrite <- !app_assoc. reflexivity.
Qed.

Lemma result_is_valid (k : Result.kwargs) :
  is_valid (Result.new k)
  = is_valid (schema_version_field (Result.schema_version k))
    && is_valid (required "transaction_id" (Result.transaction_id k))
    && is_valid (Result.confidence_field (Result.confidence k)).
Proof.
  unfold Result.new. rewrite !is_valid_ap, !is_valid_optional, !andb_true_r.
  reflexivity.
Qed.

(** The confidence field: no error on the interval, one error off it. *)
Lemma confidence_field_cases (c : option PyFloat.float) :
  (exists v, c = Some v /\ PyFloat.in_interval 0 1 v
             /\ Result.confidence_field c = Valid v)
  \/ ((c = None \/ exists v, c = Some v /\ ~ PyFloat.in_interval 0 1 v)
      /\ exists t m, Result.confidence_field c
                     = ValidationError [mkError "confidence" t m]).
Proof.
  unfold Result.confidence_field, PyFloat.required_float_range.
  destruct c as [v|].
  - pose proof (FloatFacts.unit_range_test v) as R.
    destruct (PyFloat.leb v (PyFloat.of_Z 1)) eqn:G;
      [destruct (PyFloat.geb v (PyFloat.of_Z 0)) eqn:L|]; cbn [negb].
    + left. exists v. split; [reflexivity|]. split; [apply R; auto|reflexivity].
    + right. split; [|eexists; eexists; reflexivity].
      right. exists v. split; [reflexivity|].
      intros H. apply R in H. destruct H. discriminate.
    + right. split; [|eexists; eexists; reflexivity].
      right. exists v. split; [reflexivity|].
      intros H. apply R in H. destruct H. discriminate.
  - right. split; [left; reflexivity|]. eexists. eexists. reflexivity.
Qed.

Ltac pick :=
  first [ eexists; split; [left; reflexivity | reflexivity]
        | eexists; split; [right; left; reflexivity | reflexivity]
        | eexists; split; [right; right; left; reflexivity | reflexivity] ].

(** X15.  Constructing a [TransactionClassificationResult] (with a
    confidence that is not NaN, if any) raises one validation error that has
    a line for each of: a malformed schema version, a missing
    [transaction_id], a missing confidence, a confidence outside the
    interval from 0 to 1; it has no other line, and construction succeeds
    when none of these occurs. *)
Theorem result_violations_reported (k : Result.kwargs) :
  (forall v, Result.confidence k = Some v -> PyFloat.is_nan v = false) ->
  (forall field,
      result_violated k field
      <-> exists e, In e (errors_of (Result.new k)) /\ loc e = field)
  /\ ((exists field, result_violated k field)
      <-> exists es, Result.new k = ValidationError es).
Proof.
  intros Hn.
  rewrite invalid_iff, result_is_valid, result_errors.
  rewrite errors_required, is_valid_required.
  unfold result_violated.
  destruct (confidence_field_cases (Result.confidence k))
    as [(v & Ec & Iv & E) | (Hc & t & m & E)]; rewrite E; clear E;
    (destruct (schema_version_field_cases (Result.schema_version k))
      as [(sv & E & Hv) | (sv & mm & Es & Hs & E)]; rewrite E; clear E);
    cbn [errors_of is_valid andb app];
    destruct (Result.transaction_id k) as [tid|]; cbn [app andb].
  all: try (assert (Hsv : forall s, Result.schema_version k = Some s ->
                            ~ returns (validate_version s) -> False)
              by (intros s Es Hs; apply Hs, Hv, Es)).
  all: try (assert (Hcv : forall w, Result.confidence k = Some w ->
                            ~ PyFloat.in_interval 0 1 w -> False)
              by (intros w Ew Hw; rewrite Ec in Ew; injection Ew as <-; exact (Hw Iv))).
  all: try (assert (Hcn : Result.confidence k = None -> False)
              by (intros Hx; rewrite Ec in Hx; discriminate)).
  all: split; [intros field; split|split].
  all: try (intros [(-> & sx & Esx & Hsx) | [[-> H] | [-> [H | (w & Ew & Hw)]]]];
            try discriminate;
            try (exfalso; exact (Hsv sx Esx Hsx));
            try (exfalso; exact (Hcn H));
            try (exfalso; exact (Hcv w Ew Hw));
            pick).
  all: try (intros (e & Hin & <-); simpl in Hin;
            repeat (destruct Hin as [<- | Hin];
                    [simpl; first [ left; split; [reflexivity|]; exists sv; tauto
                                  | right; left; tauto
                                  | right; right; split; [reflexivity|exact Hc] ]|]);
            contradiction).
  all: try (intros (field & [(-> & sx & Esx & Hsx) | [[-> H] | [-> [H | (w & Ew & Hw)]]]]);
            try discriminate;
            try (exfalso; exact (Hsv sx Esx Hsx));
            try (exfalso; exact (Hcn H));
            try (exfalso; exact (Hcv w Ew Hw));
            reflexivity).
  all: try (intros H; try discriminate;
            first [ exists "schema_version"; left; split; [reflexivity|]; exists sv; tauto
                  | exists "transaction_id"; right; left; tauto
                  | exists "confidence"; right; right; split; [reflexivity|exact Hc] ]).
Qed.

Lemma result_violations_reported_witness :
  (forall field,
      result_violated (without_transaction_id "v1.0" Samples.one_point_one) field
      <-> exists e,
            In e (errors_of (Result.new
                    (without_transaction_id "v1.0" Samples.one_point_one)))
            /\ loc e = field)
  /\ ((exists field,
         result_violated (without_transaction_id "v1.0" Samples.one_point_one) field)
      <-> exists es,
            Result.new (without_transaction_id "v1.0" Samples.one_point_one)
            = ValidationError es).
Proof.
  apply (result_violations_reported
           (without_transaction_id "v1.0" Samples.one_point_one)).
  intros v H. injection H as <-. reflexivity.
Defined.

Example three_violations_one_error :
  map loc (errors_of (Result.new
             (without_transaction_id "v1.0" Samples.one_point_one)))
  = ["schema_version"; "transaction_id"; "confidence"].
Proof. reflexivity. Qed.

End ClassificationMore.

Module BatchMore.
Import PyStr Pydantic PydanticFacts Versioning VersioningSpec.
Import Classification.

(** X16.  A [BatchClassificationResponse] is constructed exactly when
    [classifications] is supplied and the schema version is acceptable; when
    the metadata is supplied under neither [_meta] nor [meta] the instance
    gets [ClassificationResponseMeta()], and without [suggested_rules] an
    empty list. *)
Theorem batch_new_iff (k : Batch.kwargs) :
  (is_valid (Batch.new k) = true
     <-> is_valid (schema_version_field (Batch.schema_version (Batch.by_name k))) = true
         /\ Batch.classifications (Batch.by_name k) <> None)
  /\ (forall r, Batch.new k = Valid r ->
        Batch._meta k = None -> Batch.meta (Batch.by_name k) = None ->
        Batch.meta r = ClassificationResponseMeta.default)
  /\ (forall r, Batch.new k = Valid r ->
        Batch.suggested_rules (Batch.by_name k) = None ->
        Batch.suggested_rules r = []).
Proof.
  unfold Batch.new, Batch.meta_field, lookup_alias.
  cbn [Batch.model_config populate_by_name].
  rewrite !optional_valid.
  destruct (schema_version_field (Batch.schema_version (Batch.by_name k))) as [v|es];
    destruct (Batch.classifications (Batch.by_name k)) as [cs|];
    cbn [ap pure required is_valid].
  - split; [split; [intros _; split; [reflexivity|discriminate]|reflexivity]|].
    split; intros r H; injection H as <-; cbn [Batch.meta Batch.suggested_rules].
    + intros -> ->. reflexivity.
    + intros ->. reflexivity.
  - split; [split; [discriminate|intros [_ H]; contradiction]|].
    split; intros r; discriminate.
  - split; [split; [discriminate|intros [H _]; discriminate]|].
    split; intros r; discriminate.
  - split; [split; [discriminate|intros [H _]; discriminate]|].
    split; intros r; discriminate.
Qed.

End BatchMore.

(** ** messaging/templates.py *)

Module TemplatesMore.
Import Pydantic PydanticFacts Templates.

(** X17.  A [TemplateButton] is constructed exactly when [id] and [title]
    are supplied and the title has at most 20 characters: it then holds both
    unchanged; a title of 21 characters or more is rejected as too long, and
    the empty title is accepted. *)
Theorem button_title_limit (i t : option string) :
  (is_valid (new_button i t) = true
     <-> i <> None /\ exists s, t = Some s /\ (String.length s <= 20)%nat)
  /\ (forall a s, i = Some a -> t = Some s -> (String.length s <= 20)%nat ->
        new_button i t = Valid (mkButton a s))
  /\ (forall s, t = Some s -> (20 < String.length s)%nat ->
        exists e, In e (errors_of (new_button i t))
                  /\ loc e = "title" /\ type e = string_too_long).
Proof.
  unfold new_button, required_str_max, required.
  split; [|split].
  - destruct i as [a|], t as [s|]; cbn [ap pure];
      try destruct (Nat.ltb_spec 20 (String.length s)) as [L|L];
      cbn [ap pure is_valid]; split; try discriminate.
    all: try (intros [H (s' & E & Hs)]; try discriminate; try contradiction;
              injection E as <-; lia).
    intros _. split; [discriminate|]. exists s. split; [reflexivity|lia].
  - intros a s -> -> Hs. cbn [ap pure].
    destruct (Nat.ltb_spec 20 (String.length s)) as [L|L]; [lia|reflexivity].
  - intros s -> Hs.
    destruct (Nat.ltb_spec 20 (String.length s)) as [L|L]; [|lia].
    destruct i as [a|]; cbn [ap pure errors_of app]; eexists.
    + split; [left; reflexivity|]. split; reflexivity.
    + split; [right; left; reflexivity|]. split; reflexivity.
Qed.

Example title_of_20_accepted :
  is_valid (new_button (Some "btn_1") (Some "12345678901234567890")) = true.
Proof. reflexivity. Qed.

Example title_of_21_rejected :
  is_valid (new_button (Some "btn_1") (Some "123456789012345678901")) = false.
Proof. reflexivity. Qed.

End TemplatesMore.

(** ** messaging/message.py *)

Module MessagingMore.
Import PyStr Pydantic PydanticFacts Versioning VersioningSpec.

Section Dict.
Variable dict : Type.
Variable empty_dict : dict.

Lemma send_errors (k : Messaging.kwargs dict) :
  errors_of (Messaging.new empty_dict k)
  = (errors_of (schema_version_field (Messaging.schema_version k))
     ++ errors_of (required "tenant_id" (Messaging.tenant_id k))
     ++ errors_of (required "client_id" (Messaging.client_id k))
     ++ errors_of (required "contact_phone" (Messaging.contact_phone k)))%list.
Proof.
  unfold Messaging.new. rewrite !errors_ap, !errors_optional, !app_nil_r.
  cbn [pure errors_of app]. rewrite <- !app_assoc. reflexivity.
Qed.

Lemma send_is_valid (k : Messaging.kwargs dict) :
  is_valid (Messaging.new empty_dict k)
  = is_valid (schema_version_field (Messaging.schema_version k))
    && is_valid (required "tenant_id" (Messaging.tenant_id k))
    && is_valid (required "client_id" (Messaging.client_id k))
    && is_valid (required "contact_phone" (Messaging.contact_phone k)).
Proof.
  unfold Messaging.new. rewrite !is_valid_ap, !is_valid_optional, !andb_true_r.
  reflexivity.
Qed.

End Dict.

Ltac pick4 :=
  first [ eexists; split; [left; reflexivity | reflexivity]
        | eexists; split; [right; left; reflexivity | reflexivity]
        | eexists; split; [right; right; left; reflexivity | reflexivity]
        | eexists; split; [right; right; right; left; reflexivity | reflexivity] ].

(** X18.  Constructing a [SendMessageRequest] fails exactly when the schema
    version is malformed or one of [tenant_id], [client_id],
    [contact_phone] is missing, and the one error raised names every such
    field and no other; any string is taken as [contact_phone].  Called
    without arguments it reports the three required fields. *)
Theorem send_message_violations_reported
    (dict : Type) (empty_dict : dict) (k : Messaging.kwargs dict) :
  (forall field,
      Messaging.violated k field
      <-> exists e, In e (errors_of (Messaging.new empty_dict k)) /\ loc e = field)
  /\ ((exists field, Messaging.violated k field)
      <-> exists es, Messaging.new empty_dict k = ValidationError es)
  /\ map loc (errors_of (Messaging.new empty_dict (Messaging.no_arguments dict)))
     = ["tenant_id"; "client_id"; "contact_phone"].
Proof.
  split; [|split; [|reflexivity]].
  - intros field. rewrite send_errors, !errors_required.
    unfold Messaging.violated.
    destruct (schema_version_field_cases (Messaging.schema_version k))
      as [(v & E & Hv) | (sv & m & Es & Hs & E)]; rewrite E; clear E;
      cbn [errors_of app];
      destruct (Messaging.tenant_id k) as [tv|], (Messaging.client_id k) as [cv|],
        (Messaging.contact_phone k) as [pv|]; cbn [app]; split.
    all: try (intros [(-> & sx & Esx & Hsx) | [[-> H] | [[-> H] | [-> H]]]];
              try discriminate;
              try (exfalso; apply Hsx, Hv, Esx);
              pick4).
    all: try (intros (e & Hin & <-); simpl in Hin;
              repeat (destruct Hin as [<- | Hin];
                      [simpl; first [ left; split; [reflexivity|]; exists sv; tauto
                                    | tauto ]|]);
              contradiction).
  - rewrite invalid_iff, send_is_valid, !is_valid_required.
    unfold Messaging.violated.
    destruct (schema_version_field_cases (Messaging.schema_version k))
      as [(v & E & Hv) | (sv & m & Es & Hs & E)]; rewrite E; clear E;
      cbn [is_valid andb];
      destruct (Messaging.tenant_id k) as [tv|], (Messaging.client_id k) as [cv|],
        (Messaging.contact_phone k) as [pv|]; cbn [andb]; split.
    all: try (intros (field & [(-> & sx & Esx & Hsx) | [[-> H] | [[-> H] | [-> H]]]]);
              try discriminate;
              try (exfalso; apply Hsx, Hv, Esx);
              reflexivity).
    all: try (intros H; try discriminate;
              first [ exists "schema_version"; left; split; [reflexivity|];
                      exists sv; tauto
                    | exists "tenant_id"; tauto
                    | exists "client_id"; tauto
                    | exists "contact_phone"; tauto ]).
Qed.

End MessagingMore.

(** ** enums.py *)

Module EnumsMore.
Import Enums.

Lemma distinct_not_in x l : existsb (String.eqb x) l = false -> ~ In x l.
Proof.
  intros H Hin. assert (existsb (String.eqb x) l = true); [|congruence].
  apply existsb_exists. exists x. split; [exact Hin|apply String.eqb_refl].
Qed.

Lemma of_value_member (E : StrEnum) (name value : string) :
  distinct (map snd E) = true -> In (name, value) E -> of_value E value = Ok name.
Proof.
  induction E as [|[n v] E IH]; intros D Hin; [contradiction|].
  cbn [map snd distinct] in D. apply andb_prop in D. destruct D as [D1 D2].
  apply negb_true_iff in D1. cbn [of_value].
  destruct Hin as [Heq|Hin].
  - injection Heq as -> ->. rewrite String.eqb_refl. reflexivity.
  - destruct (String.eqb_spec v value) as [->|NE].
    + exfalso. apply (distinct_not_in _ _ D1).
      change value with (snd (name, value)). apply in_map. exact Hin.
    + apply IH; assumption.
Qed.

Lemma value_of_member (E : StrEnum) (name value : string) :
  distinct (map fst E) = true -> In (name, value) E -> value_of E name = Some value.
Proof.
  induction E as [|[n v] E IH]; intros D Hin; [contradiction|].
  cbn [map fst distinct] in D. apply andb_prop in D. destruct D as [D1 D2].
  apply negb_true_iff in D1. cbn [value_of].
  destruct Hin as [Heq|Hin].
  - injection Heq as -> ->. rewrite String.eqb_refl. reflexivity.
  - destruct (String.eqb_spec n name) as [->|NE].
    + exfalso. apply (distinct_not_in _ _ D1).
      change name with (fst (name, value)). apply in_map. exact Hin.
    + apply IH; assumption.
Qed.

Lemma of_value_inv (E : StrEnum) (name value : string) :
  of_value E value = Ok name -> In (name, value) E.
Proof.
  induction E as [|[n v] E IH]; cbn [of_value]; [discriminate|].
  destruct (String.eqb_spec v value) as [->|NE].
  - intros H. injection H as <-. left. reflexivity.
  - intros H. right. exact (IH H).
Qed.

Lemma of_value_cases (E : StrEnum) (value : string) :
  (exists name, of_value E value = Ok name)
  \/ of_value E value = Raise (ValueError "not a valid value").
Proof.
  induction E as [|[n v] E IH]; cbn [of_value]; [right; reflexivity|].
  destruct (String.eqb v value); [left; eexists; reflexivity|exact IH].
Qed.

Lemma classes_distinct (E : StrEnum) :
  In E classes -> distinct (map snd E) = true /\ distinct (map fst E) = true.
Proof.
  intros H. unfold classes in H. simpl in H.
  repeat (destruct H as [<- | H]; [split; vm_compute; reflexivity|]).
  contradiction.
Qed.

(** X19.  In each of the fifteen enums the member names are pairwise
    distinct and so are the values (no member is an alias of another):
    looking a member's value up gives that member back, a member's value is
    the string it is declared with, and a string that is no member's value
    raises [ValueError]. *)
Theorem enum_value_round_trip (E : StrEnum) (name value : string) :
  In E classes ->
  (In (name, value) E ->
     of_value E value = Ok name /\ value_of E name = Some value)
  /\ (of_value E value = Ok name -> In (name, value) E)
  /\ ((forall n, ~ In (n, value) E) -> exists m, of_value E value = Raise (ValueError m)).
Proof.
  intros HE. destruct (classes_distinct E HE) as [Dv Dn].
  split; [|split].
  - intros Hin. split; [apply of_value_member | apply value_of_member]; assumption.
  - apply of_value_inv.
  - intros Hno. destruct (of_value_cases E value) as [[n H] | H].
    + exfalso. apply (Hno n). apply of_value_inv. exact H.
    + eexists. exact H.
Qed.

Lemma enum_value_round_trip_witness :
  (In ("COST_OF_GOODS_SOLD", "cost_of_goods_sold") AccountType ->
     of_value AccountType "cost_of_goods_sold" = Ok "COST_OF_GOODS_SOLD"
     /\ value_of AccountType "COST_OF_GOODS_SOLD" = Some "cost_of_goods_sold")
  /\ (of_value AccountType "cost_of_goods_sold" = Ok "COST_OF_GOODS_SOLD" ->
      In ("COST_OF_GOODS_SOLD", "cost_of_goods_sold") AccountType)
  /\ ((forall n, ~ In (n, "cost_of_goods_sold") AccountType) ->
      exists m, of_value AccountType "cost_of_goods_sold" = Raise (ValueError m)).
Proof.
  apply (enum_value_round_trip AccountType "COST_OF_GOODS_SOLD" "cost_of_goods_sold").
  simpl. tauto.
Defined.

End EnumsMore.
